(** * Terraform provider for Prefect: deployment resource and accounts client

    A shallow embedding of
      - [internal/provider/resources/deployment.go] (the deployment resource:
        [copyDeploymentToModel], [Create], [Read], [Update], [Delete],
        [ImportState]);
      - the accounts API client ([AccountsClient.Get], [Update], [Delete]).

    Go strings are byte strings and are modelled by [string] (a list of
    8-bit [ascii]).  A Go [error] is an inductive value, [nil] being [None]
    of [option error].  Pointers that may be [nil] are options.  The
    resource methods mutate their response in place and may return early:
    they are written in a small state monad with early exit and panic. *)

From Stdlib Require Import ZArith Lia Ascii String.
From stdpp Require Import base option list strings pretty gmap.

Open Scope string_scope.
Open Scope list_scope.

(* ===================================================================== *)
(** ** Go errors *)

(** [errors.New], [fmt.Errorf] without a wrapping verb, and any error made
    by a library are [errors_New msg].  [fmt_Errorf_w prefix err] is
    [fmt.Errorf(prefix + "%w", err)]: every wrapping format of the sources
    ends in the verb. *)
Inductive error : Type :=
| errors_New (msg : string)
| fmt_Errorf_w (prefix : string) (err : error).

Fixpoint Error (e : error) : string :=
  match e with
  | errors_New msg => msg
  | fmt_Errorf_w prefix err => prefix +:+ Error err
  end.

Definition Unwrap (e : error) : option error :=
  match e with
  | errors_New _ => None
  | fmt_Errorf_w _ err => Some err
  end.

#[global] Instance error_eq_dec : EqDecision error.
Proof. solve_decision. Defined.

(** A call that returns [(T, error)] with exactly one of the two meaningful. *)
Inductive Result (T : Type) : Type :=
| Ok (v : T)
| Err (e : error).
Arguments Ok {T} v.
Arguments Err {T} e.

(* ===================================================================== *)
(** ** Package [strings] *)

Module strings.

(** [strings.Split(s, sep)] for a one-byte separator: the pieces of [s]
    between the occurrences of [sep], in order; never the empty list. *)
Fixpoint Split (s : string) (sep : ascii) : list string :=
  match s with
  | EmptyString => [EmptyString]
  | String c rest =>
      if decide (c = sep) then EmptyString :: Split rest sep
      else match Split rest sep with
           | piece :: pieces => String c piece :: pieces
           | [] => [String c EmptyString]
           end
  end.

(** ASCII lower-casing of one byte, as [strings.EqualFold] folds it. *)
Definition lower (c : ascii) : ascii :=
  let n := nat_of_ascii c in
  if (65 <=? n)%nat && (n <=? 90)%nat then ascii_of_nat (n + 32) else c.

Fixpoint EqualFold (s t : string) : bool :=
  match s, t with
  | EmptyString, EmptyString => true
  | String a s', String b t' =>
      bool_decide (lower a = lower b) && EqualFold s' t'
  | _, _ => false
  end.

End strings.

(* ===================================================================== *)
(** ** Package [github.com/google/uuid] *)

Module uuid.

(** [type UUID [16]byte] *)
Definition UUID : Type := list Byte.byte.

Definition Nil : UUID := replicate 16 Byte.x00.

(** The value of one hexadecimal digit ([xvalues]). *)
Definition xvalue (c : ascii) : option N :=
  let n := N_of_ascii c in
  if (48 <=? n)%N && (n <=? 57)%N then Some (n - 48)%N
  else if (97 <=? n)%N && (n <=? 102)%N then Some (n - 87)%N
  else if (65 <=? n)%N && (n <=? 70)%N then Some (n - 55)%N
  else None.

(** [xtob(x1, x2)]: the byte written by two hexadecimal digits. *)
Definition xtob (x1 x2 : ascii) : option Byte.byte :=
  match xvalue x1, xvalue x2 with
  | Some h, Some l => Byte.of_N (16 * h + l)
  | _, _ => None
  end.

(** [s[i]], [None] out of range. *)
Definition at_ (s : string) (i : nat) : option ascii := String.get i s.

Definition xtob_at (s : string) (x : nat) : option Byte.byte :=
  match at_ s x, at_ s (S x) with
  | Some a, Some b => xtob a b
  | _, _ => None
  end.

Definition invalid_format : error := errors_New "invalid UUID format".

Definition is_dash (s : string) (i : nat) : bool :=
  bool_decide (at_ s i = Some "-"%char).

(** The tail of [Parse]: [s] holds xxxxxxxx-xxxx-xxxx-xxxx-xxxxxxxxxxxx in
    its first 36 bytes. *)
Definition parse_hyphenated (s : string) : Result UUID :=
  if is_dash s 8 && is_dash s 13 && is_dash s 18 && is_dash s 23 then
    match mapM (xtob_at s)
            [0; 2; 4; 6; 9; 11; 14; 16; 19; 21; 24; 26; 28; 30; 32; 34]%nat with
    | Some u => Ok u
    | None => Err invalid_format
    end
  else Err invalid_format.

Definition parse_plain (s : string) : Result UUID :=
  match mapM (fun i => xtob_at s (2 * i)) (seq 0 16) with
  | Some u => Ok u
  | None => Err invalid_format
  end.

(** [uuid.Parse]: the forms of 36 bytes, of 45 with the urn prefix, of 38
    with one byte around, and of 32 without hyphens.  (In the library the message
    for a bad prefix quotes the prefix.) *)
Definition Parse (s : string) : Result UUID :=
  let n := String.length s in
  if (n =? 36)%nat then parse_hyphenated s
  else if (n =? 45)%nat then
    if strings.EqualFold (substring 0 9 s) "urn:uuid:"
    then parse_hyphenated (substring 9 36 s)
    else Err (errors_New ("invalid urn prefix: " +:+ substring 0 9 s))
  else if (n =? 38)%nat then parse_hyphenated (substring 1 37 s)
  else if (n =? 32)%nat then parse_plain s
  else Err (errors_New ("invalid UUID length: " +:+ pretty n)).

Definition hexdigit (n : N) : ascii :=
  if (n <? 10)%N then ascii_of_N (48 + n) else ascii_of_N (87 + n).

Definition encodeHex (bs : list Byte.byte) : string :=
  foldr (fun b acc =>
           let n := Byte.to_N b in
           String (hexdigit (n / 16)) (String (hexdigit (n mod 16)) acc))
        EmptyString bs.

(** [UUID.String]: the canonical lower-case hyphenated form. *)
Definition String (u : UUID) : string :=
  encodeHex (take 4 u) +:+ "-" +:+
  encodeHex (take 2 (drop 4 u)) +:+ "-" +:+
  encodeHex (take 2 (drop 6 u)) +:+ "-" +:+
  encodeHex (take 2 (drop 8 u)) +:+ "-" +:+
  encodeHex (drop 10 u).

End uuid.

(* ===================================================================== *)
(** ** Diagnostics of the plugin framework (package [diag]) *)

(** The text produced by [fmt.Sprintf(format, args...)], kept as the call:
    the format of the source and the strings handed to its verbs. *)
Record text : Type := fmt_Sprintf { format : string; args : list string }.

Inductive Severity : Type := SeverityError | SeverityWarning.

Record Diagnostic : Type := mkDiagnostic {
  severity : Severity;
  summary : string;
  detail : text;
  attribute : option string   (* [path.Root(name)] of an attribute error *)
}.

#[global] Instance text_eq_dec : EqDecision text.
Proof. solve_decision. Defined.
#[global] Instance Severity_eq_dec : EqDecision Severity.
Proof. solve_decision. Defined.
#[global] Instance Diagnostic_eq_dec : EqDecision Diagnostic.
Proof. solve_decision. Defined.

Module diag.

Definition Diagnostics : Type := list Diagnostic.

Definition NewErrorDiagnostic (summary : string) (detail : text) : Diagnostic :=
  mkDiagnostic SeverityError summary detail None.

Definition NewAttributeErrorDiagnostic (root summary : string) (detail : text)
  : Diagnostic :=
  mkDiagnostic SeverityError summary detail (Some root).

Definition is_error (d : Diagnostic) : bool :=
  match severity d with SeverityError => true | SeverityWarning => false end.

(** [Diagnostics.HasError] *)
Definition HasError (diags : Diagnostics) : bool := existsb is_error diags.

(** [Diagnostics.Append]: each new diagnostic is added at the end unless
    an equal one is already there. *)
Fixpoint Append (diags new : Diagnostics) : Diagnostics :=
  match new with
  | [] => diags
  | d :: rest =>
      if decide (d ∈ diags) then Append diags rest
      else Append (diags ++ [d]) rest
  end.

Definition AddError (diags : Diagnostics) (summary : string) (detail : text)
  : Diagnostics :=
  Append diags [NewErrorDiagnostic summary detail].

Definition AddAttributeError (diags : Diagnostics) (root summary : string)
    (detail : text) : Diagnostics :=
  Append diags [NewAttributeErrorDiagnostic root summary detail].

End diag.

(* ===================================================================== *)
(** ** The response under construction: state, early return, panic *)

(** What a resource method has done so far: the diagnostics and the state of
    its response, and the calls it made on the API client, oldest first.
    [S] is the state of the response, [C] the type of a recorded call. *)
Record Run (S C : Type) : Type := mkRun {
  Diagnostics : diag.Diagnostics;
  State : S;
  calls : list C
}.
Arguments mkRun {S C}.
Arguments Diagnostics {S C}.
Arguments State {S C}.
Arguments calls {S C}.

(** Why the Go runtime panics in the code below. *)
Inductive panic_value : Type :=
| nil_deployment       (* a field read through a [nil] [*api.Deployment] *)
| nil_client           (* a method called on a [nil] interface value *)
| index_out_of_range.

(** How a piece of a method body ends: it falls through with a value, it
    executes [return], or it panics. *)
Inductive Ctl (A : Type) : Type :=
| Next (a : A)
| Return
| Panic (p : panic_value).
Arguments Next {A} a.
Arguments Return {A}.
Arguments Panic {A} p.

Definition Op (S C A : Type) : Type := Run S C -> Ctl A * Run S C.

#[global] Instance Op_ret {S C} : MRet (Op S C) :=
  fun A a st => (Next a, st).

#[global] Instance Op_bind {S C} : MBind (Op S C) :=
  fun A B k m st =>
    match m st with
    | (Next a, st') => k a st'
    | (Return, st') => (Return, st')
    | (Panic p, st') => (Panic p, st')
    end.

Section Ops.
Context {S C : Type}.

Definition return_ {A} : Op S C A := fun st => (Return, st).
Definition panic {A} (p : panic_value) : Op S C A := fun st => (Panic p, st).

Definition Diagnostics_Append (new : diag.Diagnostics) : Op S C unit :=
  fun st => (Next (), mkRun (diag.Append (Diagnostics st) new) (State st) (calls st)).

Definition Diagnostics_AddError (summary : string) (detail : text) : Op S C unit :=
  fun st => (Next (), mkRun (diag.AddError (Diagnostics st) summary detail)
                        (State st) (calls st)).

Definition Diagnostics_AddAttributeError (root summary : string) (detail : text)
  : Op S C unit :=
  fun st => (Next (), mkRun (diag.AddAttributeError (Diagnostics st) root summary detail)
                        (State st) (calls st)).

(** [if resp.Diagnostics.HasError() { return }] *)
Definition return_if_HasError : Op S C unit :=
  fun st => if diag.HasError (Diagnostics st) then (Return, st) else (Next (), st).

Definition put_State (s : S) : Op S C unit :=
  fun st => (Next (), mkRun (Diagnostics st) s (calls st)).

Definition get_State : Op S C S := fun st => (Next (State st), st).

(** Records one call made on the API client. *)
Definition record (c : C) : Op S C unit :=
  fun st => (Next (), mkRun (Diagnostics st) (State st) (calls st ++ [c])).

End Ops.

(** Whether a method came back to its caller or panicked on the way. *)
Definition panicked {S C A} (r : Ctl A * Run S C) : bool :=
  match r.1 with Panic _ => true | _ => false end.

(* ===================================================================== *)
(** ** Values of the plugin framework and of the provider's custom types *)

Definition Context : Type := nat.   (* a [context.Context], by identity *)
Definition Time : Type := Z.        (* a [time.Time] *)

(** A Go slice, which may be [nil]. *)
Definition slice (A : Type) : Type := option (list A).

(** A dynamically typed value ([interface{}]), kept as its JSON text, and a
    [map[string]interface{}], which may be [nil]. *)
Definition any : Type := string.
Definition map_string_any : Type := option (gmap string any).

Module types.

Inductive String : Type :=
| StringNull
| StringUnknown
| StringValue (s : string).

Definition String_IsNull (v : String) : bool :=
  match v with StringNull => true | _ => false end.

Definition ValueString (v : String) : string :=
  match v with StringValue s => s | _ => "" end.

Inductive Bool : Type :=
| BoolNull
| BoolUnknown
| BoolValue (b : bool).

Definition ValueBool (v : Bool) : bool :=
  match v with BoolValue b => b | _ => false end.

Inductive List : Type :=
| ListNull
| ListUnknown
| ListValue (elements : list String).

End types.

Module jsontypes.

Inductive Normalized : Type :=
| NormalizedNull
| NormalizedUnknown
| NewNormalizedValue (s : string).

End jsontypes.

(** Package [customtypes] is not among the sources: a value is kept as the
    constructor call that made it. *)
Module customtypes.

Inductive TimestampValue : Type :=
| TimestampUnknown
| NewTimestampPointerValue (t : option Time).

Inductive UUIDValue : Type :=
| UUIDNull
| UUIDUnknown
| NewUUIDValue (u : uuid.UUID).

End customtypes.

(* ===================================================================== *)
(** ** Package [api]: the records and interfaces the resource uses *)

Module api.

Record Deployment : Type := mkDeployment {
  Deployment_ID : uuid.UUID;
  Deployment_Created : option Time;
  Deployment_Updated : option Time;
  Deployment_Description : string;
  Deployment_EnforceParameterSchema : bool;
  Deployment_Entrypoint : string;
  Deployment_FlowID : uuid.UUID;
  Deployment_ManifestPath : string;
  Deployment_Name : string;
  Deployment_Parameters : map_string_any;
  Deployment_Path : string;
  Deployment_Paused : bool;
  Deployment_Tags : slice string;
  Deployment_Version : string;
  Deployment_WorkPoolName : string;
  Deployment_WorkQueueName : string
}.

Record DeploymentCreate : Type := mkDeploymentCreate {
  DeploymentCreate_Description : string;
  DeploymentCreate_EnforceParameterSchema : bool;
  DeploymentCreate_Entrypoint : string;
  DeploymentCreate_FlowID : uuid.UUID;
  DeploymentCreate_ManifestPath : string;
  DeploymentCreate_Name : string;
  DeploymentCreate_Parameters : map_string_any;
  DeploymentCreate_Path : string;
  DeploymentCreate_Paused : bool;
  DeploymentCreate_Tags : slice string;
  DeploymentCreate_Version : string;
  DeploymentCreate_WorkPoolName : string;
  DeploymentCreate_WorkQueueName : string
}.

Record DeploymentUpdate : Type := mkDeploymentUpdate {
  DeploymentUpdate_Description : string;
  DeploymentUpdate_EnforceParameterSchema : bool;
  DeploymentUpdate_Entrypoint : string;
  DeploymentUpdate_ManifestPath : string;
  DeploymentUpdate_Parameters : map_string_any;
  DeploymentUpdate_Path : string;
  DeploymentUpdate_Paused : bool;
  DeploymentUpdate_Tags : slice string;
  DeploymentUpdate_Version : string;
  DeploymentUpdate_WorkPoolName : string;
  DeploymentUpdate_WorkQueueName : string
}.

(** [api.AccountResponse] and [api.AccountUpdate] are not among the
    sources: each is kept as the JSON object it is decoded from or
    encoded to. *)
Record AccountResponse : Type := mkAccountResponse {
  AccountResponse_fields : gmap string any
}.

Record AccountUpdate : Type := mkAccountUpdate {
  AccountUpdate_fields : gmap string any
}.

(** [api.DeploymentsClient]: what each method answers.  A returned
    pointer may be [nil] whatever the error is. *)
Record DeploymentsClient : Type := mkDeploymentsClient {
  Create : Context -> DeploymentCreate -> option Deployment * option error;
  Get : Context -> uuid.UUID -> option Deployment * option error;
  Update : Context -> uuid.UUID -> DeploymentUpdate -> option error;
  Delete : Context -> uuid.UUID -> option error
}.

(** [api.PrefectClient.Deployments(accountID, workspaceID)]: an interface
    value, [nil] being [None], and an error. *)
Record PrefectClient : Type := mkPrefectClient {
  Deployments : uuid.UUID -> uuid.UUID -> option DeploymentsClient * option error
}.

End api.

(* ===================================================================== *)
(** ** The deployment resource *)

(** [DeploymentResource]: the framework configures the resource before it
    runs one of the methods below, so [client] is never [nil] there. *)
Record DeploymentResource : Type := mkDeploymentResource {
  client : api.PrefectClient
}.

Record DeploymentResourceModel : Type := mkDeploymentResourceModel {
  ID : types.String;
  Created : customtypes.TimestampValue;
  Updated : customtypes.TimestampValue;
  AccountID : customtypes.UUIDValue;
  WorkspaceID : customtypes.UUIDValue;
  Description : types.String;
  EnforceParameterSchema : types.Bool;
  Entrypoint : types.String;
  FlowID : customtypes.UUIDValue;
  ManifestPath : types.String;
  Name : types.String;
  Parameters : jsontypes.Normalized;
  Path : types.String;
  Paused : types.Bool;
  Tags : types.List;
  Version : types.String;
  WorkPoolName : types.String;
  WorkQueueName : types.String
}.

(** [model.Tags = tags] and [model.Parameters = parameters]. *)
Definition set_Tags (tags : types.List) (m : DeploymentResourceModel)
  : DeploymentResourceModel :=
  mkDeploymentResourceModel (ID m) (Created m) (Updated m) (AccountID m)
    (WorkspaceID m) (Description m) (EnforceParameterSchema m) (Entrypoint m)
    (FlowID m) (ManifestPath m) (Name m) (Parameters m) (Path m) (Paused m)
    tags (Version m) (WorkPoolName m) (WorkQueueName m).

Definition set_Parameters (parameters : jsontypes.Normalized)
    (m : DeploymentResourceModel) : DeploymentResourceModel :=
  mkDeploymentResourceModel (ID m) (Created m) (Updated m) (AccountID m)
    (WorkspaceID m) (Description m) (EnforceParameterSchema m) (Entrypoint m)
    (FlowID m) (ManifestPath m) (Name m) parameters (Path m) (Paused m)
    (Tags m) (Version m) (WorkPoolName m) (WorkQueueName m).

(** A call the resource made on a deployments client: the client value it
    was made on, the context handed over, and the arguments. *)
Inductive Call : Type :=
| Call_Create (c : api.DeploymentsClient) (ctx : Context) (data : api.DeploymentCreate)
| Call_Get (c : api.DeploymentsClient) (ctx : Context) (id : uuid.UUID)
| Call_Update (c : api.DeploymentsClient) (ctx : Context) (id : uuid.UUID)
    (payload : api.DeploymentUpdate)
| Call_Delete (c : api.DeploymentsClient) (ctx : Context) (id : uuid.UUID).

(** What the code relies on from outside the sources: conversions of the
    plugin framework, [encoding/json], and the provider's packages
    [customtypes] and [helpers]. *)
Record Externals : Type := mkExternals {
  (** [UUIDValue.ValueUUID()] *)
  ValueUUID : customtypes.UUIDValue -> uuid.UUID;
  (** [list.ElementsAs(ctx, &tags, false)]: the slice left in [tags] and
      the diagnostics returned. *)
  ElementsAs : types.List -> slice string * diag.Diagnostics;
  (** [normalized.Unmarshal(&data)] *)
  Unmarshal : jsontypes.Normalized -> map_string_any * diag.Diagnostics;
  (** [types.ListValueFrom(ctx, types.StringType, tags)] *)
  ListValueFrom : slice string -> types.List * diag.Diagnostics;
  (** [json.Marshal(parameters)] *)
  json_Marshal : map_string_any -> Result string;
  (** The diagnostics [State.Set(ctx, &model)] returns. *)
  State_Set_diags : DeploymentResourceModel -> diag.Diagnostics;
  (** Summary and detail of [helpers.ParseUUIDErrorDiagnostic(name, err)]
      and of [helpers.SerializeDataErrorDiagnostic(path, name, err)]. *)
  ParseUUIDError_text : string -> error -> string * text;
  SerializeDataError_text : string -> string -> error -> string * text
}.

Module helpers.

(** Modelled from the spec: [helpers.ParseUUIDErrorDiagnostic] is not among
    the sources; a failure is surfaced as a user-facing diagnostic, so it
    is an error diagnostic, of a text left to [Externals]. *)
Definition ParseUUIDErrorDiagnostic (E : Externals) (name : string) (err : error)
  : Diagnostic :=
  let '(summary, detail) := ParseUUIDError_text E name err in
  diag.NewErrorDiagnostic summary detail.

(** Modelled from the spec: [helpers.SerializeDataErrorDiagnostic] is not
    among the sources; an encode failure is surfaced as a user-facing
    diagnostic on the attribute, so it is an error diagnostic. *)
Definition SerializeDataErrorDiagnostic (E : Externals) (pathRoot name : string)
    (err : error) : Diagnostic :=
  let '(summary, detail) := SerializeDataError_text E pathRoot name err in
  diag.NewAttributeErrorDiagnostic pathRoot summary detail.

End helpers.

(** A [tfsdk.Config], [tfsdk.Plan] or [tfsdk.State] of a request, as
    [Get(ctx, &model)] reads it: the model it fills and the diagnostics it
    returns. *)
Record tfsdk_Data : Type := mktfsdk_Data {
  Get_model : DeploymentResourceModel;
  Get_diags : diag.Diagnostics
}.

Record CreateRequest : Type := { CreateRequest_Config : tfsdk_Data }.
Record ReadRequest : Type := { ReadRequest_State : tfsdk_Data }.
Record UpdateRequest : Type := { UpdateRequest_Plan : tfsdk_Data }.
Record DeleteRequest : Type := { DeleteRequest_State : tfsdk_Data }.
Record ImportStateRequest : Type := { ImportStateRequest_ID : string }.

(** The state of a create, read, update or delete response: the model last
    written by [State.Set], [None] while there is none. *)
Definition ResourceState : Type := option DeploymentResourceModel.

(** The state of an import response: the attributes set so far. *)
Definition ImportedState : Type := gmap string string.

Section Resource.
Variable E : Externals.

(** [resp.State.Set(ctx, &model)]: the framework writes the state when the
    conversion of the model gave no error, and returns the diagnostics. *)
Definition State_Set (model : DeploymentResourceModel)
  : Op ResourceState Call diag.Diagnostics :=
  let diags := State_Set_diags E model in
  (if diag.HasError diags then mret () else put_State (Some model));;
  mret diags.

(** [resp.State.SetAttribute(ctx, path.Root(name), value)] with a string
    for an attribute the schema declares as a string: the attribute is
    written and no diagnostic comes back. *)
Definition State_SetAttribute (name value : string)
  : Op ImportedState Call diag.Diagnostics :=
  s ← get_State;
  put_State (<[name := value]> s);;
  mret [].

(** A method called on an interface value panics when the value is [nil]. *)
Definition client_Create (c : option api.DeploymentsClient) (ctx : Context)
    (data : api.DeploymentCreate)
  : Op ResourceState Call (option api.Deployment * option error) :=
  match c with
  | None => panic nil_client
  | Some c => record (Call_Create c ctx data);; mret (api.Create c ctx data)
  end.

Definition client_Get (c : option api.DeploymentsClient) (ctx : Context)
    (id : uuid.UUID)
  : Op ResourceState Call (option api.Deployment * option error) :=
  match c with
  | None => panic nil_client
  | Some c => record (Call_Get c ctx id);; mret (api.Get c ctx id)
  end.

Definition client_Update (c : option api.DeploymentsClient) (ctx : Context)
    (id : uuid.UUID) (payload : api.DeploymentUpdate)
  : Op ResourceState Call (option error) :=
  match c with
  | None => panic nil_client
  | Some c => record (Call_Update c ctx id payload);;
              mret (api.Update c ctx id payload)
  end.

Definition client_Delete (c : option api.DeploymentsClient) (ctx : Context)
    (id : uuid.UUID) : Op ResourceState Call (option error) :=
  match c with
  | None => panic nil_client
  | Some c => record (Call_Delete c ctx id);; mret (api.Delete c ctx id)
  end.

(** [copyDeploymentToModel(ctx, deployment, model)]: the model as the call
    leaves it and the diagnostics returned; [None] when the call panics,
    which it does at its first line on a [nil] deployment. *)
Definition copyDeploymentToModel (ctx : Context)
    (deployment : option api.Deployment) (model : DeploymentResourceModel)
  : option (DeploymentResourceModel * diag.Diagnostics) :=
  match deployment with
  | None => None
  | Some d =>
      let model :=
        mkDeploymentResourceModel
          (types.StringValue (uuid.String (api.Deployment_ID d)))
          (customtypes.NewTimestampPointerValue (api.Deployment_Created d))
          (customtypes.NewTimestampPointerValue (api.Deployment_Updated d))
          (AccountID model)
          (WorkspaceID model)
          (types.StringValue (api.Deployment_Description d))
          (types.BoolValue (api.Deployment_EnforceParameterSchema d))
          (types.StringValue (api.Deployment_Entrypoint d))
          (customtypes.NewUUIDValue (api.Deployment_FlowID d))
          (types.StringValue (api.Deployment_ManifestPath d))
          (types.StringValue (api.Deployment_Name d))
          (Parameters model)
          (types.StringValue (api.Deployment_Path d))
          (types.BoolValue (api.Deployment_Paused d))
          (Tags model)
          (types.StringValue (api.Deployment_Version d))
          (types.StringValue (api.Deployment_WorkPoolName d))
          (types.StringValue (api.Deployment_WorkQueueName d)) in
      let '(tags, diags) := ListValueFrom E (api.Deployment_Tags d) in
      if diag.HasError diags then Some (model, diags)
      else Some (set_Tags tags model, [])
  end.

Definition client_error_detail (err : error) : text :=
  fmt_Sprintf "Could not create deployment client, unexpected error: %s. This is a bug in the provider, please report this to the maintainers."
    [Error err].

(** The block after [r.client.Deployments(...)]: an error is reported and
    the method goes on. *)
Definition report_client_error {S} (err : option error) : Op S Call unit :=
  match err with
  | Some err =>
      Diagnostics_AddError "Error creating deployment client"
        (client_error_detail err)
  | None => mret ()
  end.

Definition parse_id_detail (err : error) : text :=
  fmt_Sprintf "Could not parse deployment ID to UUID, unexpected error: %s"
    [Error err].

(** [DeploymentResource.Create] *)
Definition Create (r : DeploymentResource) (ctx : Context) (req : CreateRequest)
  : Op ResourceState Call unit :=
  let plan := Get_model (CreateRequest_Config req) in
  Diagnostics_Append (Get_diags (CreateRequest_Config req));;
  return_if_HasError;;
  let '(client, err) :=
    api.Deployments (client r) (ValueUUID E (AccountID plan))
      (ValueUUID E (WorkspaceID plan)) in
  report_client_error err;;
  let '(tags, diags) := ElementsAs E (Tags plan) in
  Diagnostics_Append diags;;
  return_if_HasError;;
  let '(data, diags) := Unmarshal E (Parameters plan) in
  Diagnostics_Append diags;;
  return_if_HasError;;
  '(deployment, err) ← client_Create client ctx
    (api.mkDeploymentCreate
       (types.ValueString (Description plan))
       (types.ValueBool (EnforceParameterSchema plan))
       (types.ValueString (Entrypoint plan))
       (ValueUUID E (FlowID plan))
       (types.ValueString (ManifestPath plan))
       (types.ValueString (Name plan))
       data
       (types.ValueString (Path plan))
       (types.ValueBool (Paused plan))
       tags
       (types.ValueString (Version plan))
       (types.ValueString (WorkPoolName plan))
       (types.ValueString (WorkQueueName plan)));
  match err with
  | Some err =>
      Diagnostics_AddError "Error creating deployment"
        (fmt_Sprintf "Could not create deployment, unexpected error: %s" [Error err]);;
      return_
  | None =>
      match copyDeploymentToModel ctx deployment plan with
      | None => panic nil_deployment
      | Some (plan, diags) =>
          Diagnostics_Append diags;;
          return_if_HasError;;
          diags ← State_Set plan;
          Diagnostics_Append diags;;
          return_if_HasError
      end
  end.

(** [DeploymentResource.Read].  After a failed [json.Marshal] the byte
    slice is [nil], and [Read] goes on with its empty string. *)
Definition Read (r : DeploymentResource) (ctx : Context) (req : ReadRequest)
  : Op ResourceState Call unit :=
  let model := Get_model (ReadRequest_State req) in
  Diagnostics_Append (Get_diags (ReadRequest_State req));;
  return_if_HasError;;
  let '(client, err) :=
    api.Deployments (client r) (ValueUUID E (AccountID model))
      (ValueUUID E (WorkspaceID model)) in
  report_client_error err;;
  '(deployment, err) ←
    (if negb (types.String_IsNull (ID model)) then
       match uuid.Parse (types.ValueString (ID model)) with
       | Err err =>
           Diagnostics_AddAttributeError "id" "Error parsing Deployment ID"
             (parse_id_detail err);;
           return_
       | Ok deploymentID => client_Get client ctx deploymentID
       end
     else mret (None, err));
  match err with
  | Some err =>
      Diagnostics_AddError "Error refreshing deployment state"
        (fmt_Sprintf "Could not read Deployment, unexpected error: %s" [Error err]);;
      return_
  | None =>
      match copyDeploymentToModel ctx deployment model with
      | None => panic nil_deployment
      | Some (model, diags) =>
          Diagnostics_Append diags;;
          return_if_HasError;;
          match deployment with
          | None => panic nil_deployment
          | Some d =>
              byteSlice ←
                match json_Marshal E (api.Deployment_Parameters d) with
                | Ok bytes => mret bytes
                | Err err =>
                    Diagnostics_Append
                      [helpers.SerializeDataErrorDiagnostic E "parameters"
                         "Deployment parameters" err];;
                    mret ""
                end;
              let model :=
                set_Parameters (jsontypes.NewNormalizedValue byteSlice) model in
              diags ← State_Set model;
              Diagnostics_Append diags;;
              return_if_HasError
          end
      end
  end.

(** [DeploymentResource.Update] *)
Definition Update (r : DeploymentResource) (ctx : Context) (req : UpdateRequest)
  : Op ResourceState Call unit :=
  let model := Get_model (UpdateRequest_Plan req) in
  Diagnostics_Append (Get_diags (UpdateRequest_Plan req));;
  return_if_HasError;;
  let '(client, err) :=
    api.Deployments (client r) (ValueUUID E (AccountID model))
      (ValueUUID E (WorkspaceID model)) in
  report_client_error err;;
  match uuid.Parse (types.ValueString (ID model)) with
  | Err err =>
      Diagnostics_AddAttributeError "id" "Error parsing Deployment ID"
        (parse_id_detail err);;
      return_
  | Ok deploymentID =>
      let '(tags, diags) := ElementsAs E (Tags model) in
      Diagnostics_Append diags;;
      return_if_HasError;;
      let '(parameters, diags) := Unmarshal E (Parameters model) in
      Diagnostics_Append diags;;
      return_if_HasError;;
      let payload :=
        api.mkDeploymentUpdate
          (types.ValueString (Description model))
          (types.ValueBool (EnforceParameterSchema model))
          (types.ValueString (Entrypoint model))
          (types.ValueString (ManifestPath model))
          parameters
          (types.ValueString (Path model))
          (types.ValueBool (Paused model))
          tags
          (types.ValueString (Version model))
          (types.ValueString (WorkPoolName model))
          (types.ValueString (WorkQueueName model)) in
      err ← client_Update client ctx deploymentID payload;
      match err with
      | Some err =>
          Diagnostics_AddError "Error updating deployment"
            (fmt_Sprintf "Could not update deployment, unexpected error: %s"
               [Error err]);;
          return_
      | None =>
          '(deployment, err) ← client_Get client ctx deploymentID;
          match err with
          | Some err =>
              Diagnostics_AddError "Error refreshing Deployment state"
                (fmt_Sprintf "Could not read Deployment, unexpected error: %s"
                   [Error err]);;
              return_
          | None =>
              match copyDeploymentToModel ctx deployment model with
              | None => panic nil_deployment
              | Some (model, diags) =>
                  Diagnostics_Append diags;;
                  return_if_HasError;;
                  match deployment with
                  | None => panic nil_deployment
                  | Some d =>
                      match json_Marshal E (api.Deployment_Parameters d) with
                      | Err err =>
                          Diagnostics_Append
                            [helpers.SerializeDataErrorDiagnostic E "parameters"
                               "Deployment parameters" err];;
                          return_
                      | Ok byteSlice =>
                          let model :=
                            set_Parameters
                              (jsontypes.NewNormalizedValue byteSlice) model in
                          diags ← State_Set model;
                          Diagnostics_Append diags;;
                          return_if_HasError
                      end
                  end
              end
          end
      end
  end.

(** [DeploymentResource.Delete] *)
Definition Delete (r : DeploymentResource) (ctx : Context) (req : DeleteRequest)
  : Op ResourceState Call unit :=
  let state := Get_model (DeleteRequest_State req) in
  Diagnostics_Append (Get_diags (DeleteRequest_State req));;
  return_if_HasError;;
  let '(client, err) :=
    api.Deployments (client r) (ValueUUID E (AccountID state))
      (ValueUUID E (WorkspaceID state)) in
  report_client_error err;;
  match uuid.Parse (types.ValueString (ID state)) with
  | Err err =>
      Diagnostics_AddAttributeError "id" "Error parsing Deployment ID"
        (parse_id_detail err);;
      return_
  | Ok deploymentID =>
      err ← client_Delete client ctx deploymentID;
      match err with
      | Some err =>
          Diagnostics_AddError "Error deleting Deployment"
            (fmt_Sprintf "Could not delete Deployment, unexpected error: %s"
               [Error err]);;
          return_
      | None =>
          diags ← State_Set state;
          Diagnostics_Append diags;;
          return_if_HasError
      end
  end.

(** [inputParts[i]], which panics out of range. *)
Definition index {S} (parts : list string) (i : nat) : Op S Call string :=
  match parts !! i with
  | Some part => mret part
  | None => panic index_out_of_range
  end.

(** [DeploymentResource.ImportState] *)
Definition ImportState (r : DeploymentResource) (ctx : Context)
    (req : ImportStateRequest) : Op ImportedState Call unit :=
  let maxInputCount := 2 in
  let inputParts := strings.Split (ImportStateRequest_ID req) ","%char in
  if decide (maxInputCount < length inputParts) then
    Diagnostics_AddError "Unexpected Import Identifier"
      (fmt_Sprintf "Expected a maximum of 2 import identifiers, in the form of `id,workspace_id`. Got %q"
         [ImportStateRequest_ID req]);;
    return_
  else
    empty_part ←
      (if decide (length inputParts = maxInputCount) then
         p0 ← index inputParts 0;
         if decide (p0 = "") then mret true
         else p1 ← index inputParts 1; mret (bool_decide (p1 = ""))
       else mret false : Op ImportedState Call bool);
    if empty_part : bool then
      Diagnostics_AddError "Unexpected Import Identifier"
        (fmt_Sprintf "Expected non-empty import identifiers, in the form of `id,workspace_id`. Got %q"
           [ImportStateRequest_ID req]);;
      return_
    else
      identifier ← index inputParts 0;
      diags ← State_SetAttribute "id" identifier;
      Diagnostics_Append diags;;
      second_part ←
        (if decide (length inputParts = 2) then
           p1 ← index inputParts 1; mret (if decide (p1 = "") then None else Some p1)
         else mret None : Op ImportedState Call (option string));
      match second_part with
      | Some p1 =>
          match uuid.Parse p1 with
          | Err err =>
              Diagnostics_Append
                [helpers.ParseUUIDErrorDiagnostic E "Deployment" err];;
              return_
          | Ok workspaceID =>
              diags ← State_SetAttribute "workspace_id" (uuid.String workspaceID);
              Diagnostics_Append diags
          end
      | None => (mret () : Op ImportedState Call unit)
      end.

End Resource.

(** A fresh response, as the framework hands it to a method. *)
Definition start {S} (s : S) : Run S Call := mkRun [] s [].

(* ===================================================================== *)
(** ** Package [net/http] and the accounts client *)

Module http.

Definition MethodGet : string := "GET".
Definition MethodPatch : string := "PATCH".
Definition MethodDelete : string := "DELETE".

Definition StatusOK : Z := 200.
Definition StatusNoContent : Z := 204.

(** A request: the context it was made with, and what it carries;
    [Body = None] is [http.NoBody]. *)
Record Request : Type := mkRequest {
  Request_ctx : Context;
  Method : string;
  URL : string;
  Body : option string;
  Header : list (string * string)
}.

Record Response : Type := mkResponse {
  StatusCode : Z;
  Status : string;
  Response_Body : string
}.

(** [*http.Client]: what [Do] answers to a request. *)
Record Client : Type := mkClient {
  Do : Request -> Result Response
}.

End http.

(** What the accounts client relies on from outside the sources. *)
Record ClientExternals : Type := mkClientExternals {
  (** The error of [http.NewRequestWithContext(ctx, method, url, body)],
      if it refuses the method or the URL. *)
  NewRequest_error : string -> string -> option error;
  (** The headers [setDefaultHeaders(req, apiKey)] sets. *)
  default_headers : string -> list (string * string);
  (** [json.NewDecoder(body).Decode(&account)] *)
  Decode_AccountResponse : string -> Result api.AccountResponse;
  (** [json.NewEncoder(&buf).Encode(&data)]: the bytes left in [buf]. *)
  Encode_AccountUpdate : api.AccountUpdate -> Result string
}.

Record AccountsClient : Type := mkAccountsClient {
  hc : http.Client;
  endpoint : string;
  apiKey : string
}.

Section Accounts.
Variable X : ClientExternals.

(** [http.NewRequestWithContext]: the request keeps the context, the
    method, the URL and the body it is given. *)
Definition NewRequestWithContext (ctx : Context) (method url : string)
    (body : option string) : Result http.Request :=
  match NewRequest_error X method url with
  | Some err => Err err
  | None => Ok (http.mkRequest ctx method url body [])
  end.

(** Modelled from the spec: [setDefaultHeaders] is not among the sources;
    it is the header-construction helper, which sets the bearer-token
    header and the other default headers on the request. *)
Definition setDefaultHeaders (req : http.Request) (apiKey : string)
  : http.Request :=
  http.mkRequest (http.Request_ctx req) (http.Method req) (http.URL req)
    (http.Body req) (default_headers X apiKey).

Definition status_error (resp : http.Response) : error :=
  errors_New ("status code " +:+ http.Status resp).

(** [AccountsClient.Get]: the pointer and the error returned, and the
    requests handed to [hc.Do], oldest first. *)
Definition Accounts_Get (c : AccountsClient) (ctx : Context) (accountID : uuid.UUID)
  : (option api.AccountResponse * option error) * list http.Request :=
  match NewRequestWithContext ctx http.MethodGet
          (endpoint c +:+ "/accounts/" +:+ uuid.String accountID) None with
  | Err err => ((None, Some (fmt_Errorf_w "error creating request: " err)), [])
  | Ok req =>
      let req := setDefaultHeaders req (apiKey c) in
      match http.Do (hc c) req with
      | Err err => ((None, Some (fmt_Errorf_w "http error: " err)), [req])
      | Ok resp =>
          if decide (http.StatusCode resp ≠ http.StatusOK) then
            ((None, Some (status_error resp)), [req])
          else
            match Decode_AccountResponse X (http.Response_Body resp) with
            | Err err =>
                ((None, Some (fmt_Errorf_w "failed to decode response: " err)), [req])
            | Ok account => ((Some account, None), [req])
            end
      end
  end.

(** [AccountsClient.Update] *)
Definition Accounts_Update (c : AccountsClient) (ctx : Context)
    (accountID : uuid.UUID) (data : api.AccountUpdate)
  : option error * list http.Request :=
  match Encode_AccountUpdate X data with
  | Err err => (Some (fmt_Errorf_w "failed to encode data: " err), [])
  | Ok buf =>
      match NewRequestWithContext ctx http.MethodPatch
              (endpoint c +:+ "/accounts/" +:+ uuid.String accountID) (Some buf) with
      | Err err => (Some (fmt_Errorf_w "error creating request: " err), [])
      | Ok req =>
          let req := setDefaultHeaders req (apiKey c) in
          match http.Do (hc c) req with
          | Err err => (Some (fmt_Errorf_w "http error: " err), [req])
          | Ok resp =>
              if decide (http.StatusCode resp ≠ http.StatusOK
                         ∧ http.StatusCode resp ≠ http.StatusNoContent) then
                (Some (status_error resp), [req])
              else (None, [req])
          end
      end
  end.

(** [AccountsClient.Delete] *)
Definition Accounts_Delete (c : AccountsClient) (ctx : Context)
    (accountID : uuid.UUID) : option error * list http.Request :=
  match NewRequestWithContext ctx http.MethodDelete
          (endpoint c +:+ "/accounts/" +:+ uuid.String accountID) None with
  | Err err => (Some (fmt_Errorf_w "error creating request: " err), [])
  | Ok req =>
      let req := setDefaultHeaders req (apiKey c) in
      match http.Do (hc c) req with
      | Err err => (Some (fmt_Errorf_w "http error: " err), [req])
      | Ok resp =>
          if decide (http.StatusCode resp ≠ http.StatusOK
                     ∧ http.StatusCode resp ≠ http.StatusNoContent) then
            (Some (status_error resp), [req])
          else (None, [req])
      end
  end.

End Accounts.

(* ===================================================================== *)
(** ** A concrete setting, to run the code on *)

Module demo.

Definition unknown_list : Diagnostic :=
  diag.NewErrorDiagnostic "List Type Validation Error"
    (fmt_Sprintf "Received unknown value" []).

Definition E : Externals :=
  mkExternals
    (fun v => match v with customtypes.NewUUIDValue u => u | _ => uuid.Nil end)
    (fun l => match l with
              | types.ListValue es => (Some (map types.ValueString es), [])
              | types.ListNull => (None, [])
              | types.ListUnknown => (None, [unknown_list])
              end)
    (fun n => match n with
              | jsontypes.NewNormalizedValue _ => (Some ∅, [])
              | _ => (None, [])
              end)
    (fun tags => match tags with
                 | Some l => (types.ListValue (map types.StringValue l), [])
                 | None => (types.ListNull, [])
                 end)
    (fun p => Ok (match p with Some _ => "{}" | None => "null" end))
    (fun _ => [])
    (fun name err => ("Error parsing " +:+ name +:+ " ID", fmt_Sprintf "%s" [Error err]))
    (fun _ name err => ("Unable to serialize " +:+ name, fmt_Sprintf "%s" [Error err])).

Definition id_text : string := "123e4567-e89b-12d3-a456-426614174000".

Definition id : uuid.UUID :=
  [Byte.x12; Byte.x3e; Byte.x45; Byte.x67; Byte.xe8; Byte.x9b; Byte.x12; Byte.xd3;
   Byte.xa4; Byte.x56; Byte.x42; Byte.x66; Byte.x14; Byte.x17; Byte.x40; Byte.x00].

Definition deployment : api.Deployment :=
  api.mkDeployment id (Some 1700000000%Z) (Some 1700000500%Z) "nightly run" true
    "flows/etl.py:main" uuid.Nil "" "etl" (Some ∅) "/opt/flows" false
    (Some ["prod"; "etl"]) "v2" "default-pool" "default".

(** A server that answers every call. *)
Definition server : api.DeploymentsClient :=
  api.mkDeploymentsClient
    (fun _ _ => (Some deployment, None))
    (fun _ _ => (Some deployment, None))
    (fun _ _ _ => None)
    (fun _ _ => None).

Definition refused : error := errors_New "status code 500 Internal Server Error".

(** A server that fails every call. *)
Definition broken_server : api.DeploymentsClient :=
  api.mkDeploymentsClient
    (fun _ _ => (None, Some refused))
    (fun _ _ => (None, Some refused))
    (fun _ _ _ => Some refused)
    (fun _ _ => Some refused).

Definition no_workspace : error :=
  errors_New "an account_id and workspace_id are required".

Definition resource : DeploymentResource :=
  mkDeploymentResource (api.mkPrefectClient (fun _ _ => (Some server, None))).

Definition broken_resource : DeploymentResource :=
  mkDeploymentResource (api.mkPrefectClient (fun _ _ => (Some broken_server, None))).

(** A provider whose deployments client cannot be built: the error comes
    with a [nil] client, or with a client all the same. *)
Definition unconfigured : DeploymentResource :=
  mkDeploymentResource (api.mkPrefectClient (fun _ _ => (None, Some no_workspace))).

Definition half_configured : DeploymentResource :=
  mkDeploymentResource
    (api.mkPrefectClient (fun _ _ => (Some server, Some no_workspace))).

Definition plan : DeploymentResourceModel :=
  mkDeploymentResourceModel (types.StringValue id_text)
    customtypes.TimestampUnknown customtypes.TimestampUnknown
    customtypes.UUIDNull customtypes.UUIDNull
    (types.StringValue "old text") (types.BoolValue false)
    (types.StringValue "flows/etl.py:main") (customtypes.NewUUIDValue uuid.Nil)
    types.StringNull (types.StringValue "etl")
    (jsontypes.NewNormalizedValue "{ }")
    types.StringNull (types.BoolValue true) (types.ListValue [])
    types.StringNull types.StringNull types.StringNull.

(** The same model with another [id]. *)
Definition with_ID (v : types.String) (m : DeploymentResourceModel)
  : DeploymentResourceModel :=
  mkDeploymentResourceModel v (Created m) (Updated m) (AccountID m)
    (WorkspaceID m) (Description m) (EnforceParameterSchema m) (Entrypoint m)
    (FlowID m) (ManifestPath m) (Name m) (Parameters m) (Path m) (Paused m)
    (Tags m) (Version m) (WorkPoolName m) (WorkQueueName m).

Definition ctx : Context := 7.

Definition data (m : DeploymentResourceModel) : tfsdk_Data := mktfsdk_Data m [].

(** The accounts client. *)
Definition X : ClientExternals :=
  mkClientExternals
    (fun _ url => if decide (url = "") then Some (errors_New "empty url") else None)
    (fun key => [("Authorization", "Bearer " +:+ key)])
    (fun body => if decide (body = "") then Err (errors_New "EOF")
                 else Ok (api.mkAccountResponse ∅))
    (fun _ => Ok "{}").

(** An HTTP client whose server answers every request with [code]. *)
Definition answering (code : Z) (status : string) : AccountsClient :=
  mkAccountsClient
    (http.mkClient (fun _ => Ok (http.mkResponse code status "{}")))
    "https://api.example.test" "key".

End demo.

(* ===================================================================== *)
(** ** The rest of the code: counting, the client, configuration, schema *)

(** [strings.Count(s, sep)] for a one-byte separator: how many times [sep]
    occurs in [s]. *)
Fixpoint Count (s : string) (sep : ascii) : nat :=
  match s with
  | EmptyString => 0
  | String c rest => (if decide (c = sep) then 1 else 0) + Count rest sep
  end.

(** [Client], of which the sources show the three fields that [Accounts]
    hands on. *)
Record Client : Type := mkClient {
  Client_hc : http.Client;
  Client_endpoint : string;
  Client_apiKey : string
}.

(** [Client.Accounts] *)
Definition Accounts (c : Client) : AccountsClient * option error :=
  (mkAccountsClient (Client_hc c) (Client_endpoint c) (Client_apiKey c), None).

(** What [req.ProviderData] holds: nothing, the provider's client, or a
    value of another type, of which [%T] prints the name. *)
Inductive ProviderData : Type :=
| ProviderData_nil
| ProviderData_PrefectClient (c : api.PrefectClient)
| ProviderData_other (type_name : string).

Record ConfigureRequest : Type := { ConfigureRequest_ProviderData : ProviderData }.

(** [DeploymentResource.Configure]: the [client] field of the receiver,
    [None] while it is [nil], and the diagnostics of the response, before
    and after. *)
Definition Configure (r_client : option api.PrefectClient) (req : ConfigureRequest)
    (diags : diag.Diagnostics) : option api.PrefectClient * diag.Diagnostics :=
  match ConfigureRequest_ProviderData req with
  | ProviderData_nil => (r_client, diags)
  | ProviderData_other type_name =>
      (r_client,
       diag.AddError diags "Unexpected Resource Configure Type"
         (fmt_Sprintf "Expected api.PrefectClient, got: %T. Please report this issue to the provider developers."
            [type_name]))
  | ProviderData_PrefectClient client => (Some client, diags)
  end.

Inductive AttributeKind : Type := StringAttribute | BoolAttribute | ListAttribute.

Inductive CustomType : Type := TimestampType | UUIDType | NormalizedType.

(** [booldefault.StaticBool(b)] and [listdefault.StaticValue] of a list of
    strings. *)
Inductive Default : Type :=
| StaticBool (b : bool)
| StaticValue (elements : list string).

(** A [schema.StringAttribute], [schema.BoolAttribute] or
    [schema.ListAttribute] (of strings); [UseStateForUnknown] is whether the
    plan modifier of that name is among [PlanModifiers]. *)
Record Attribute : Type := mkAttribute {
  Attribute_kind : AttributeKind;
  Attribute_CustomType : option CustomType;
  Attribute_Description : string;
  Attribute_Required : bool;
  Attribute_Optional : bool;
  Attribute_Computed : bool;
  Attribute_Default : option Default;
  Attribute_UseStateForUnknown : bool
}.

(** [defaultEmptyTagList] of [Schema]: the list value of no element. *)
Definition defaultEmptyTagList : list string := [].

(** [DeploymentResource.Schema]: the attributes of [resp.Schema], in the
    order of the source. *)
Definition Schema : list (string * Attribute) :=
  [ ("id",
     mkAttribute StringAttribute None "Workspace ID (UUID)"
       false false true None true);
    ("created",
     mkAttribute StringAttribute (Some TimestampType)
       "Timestamp of when the resource was created (RFC3339)"
       false false true None true);
    ("updated",
     mkAttribute StringAttribute (Some TimestampType)
       "Timestamp of when the resource was updated (RFC3339)"
       false false true None false);
    ("account_id",
     mkAttribute StringAttribute (Some UUIDType)
       "Account ID (UUID), defaults to the account set in the provider"
       false true false None false);
    ("workspace_id",
     mkAttribute StringAttribute (Some UUIDType)
       "Workspace ID (UUID) to associate deployment to"
       false true false None false);
    ("name",
     mkAttribute StringAttribute None "Name of the workspace"
       true false false None false);
    ("flow_id",
     mkAttribute StringAttribute (Some UUIDType)
       "Flow ID (UUID) to associate deployment to"
       true false false None false);
    ("paused",
     mkAttribute BoolAttribute None "Whether or not the deployment is paused."
       false true true (Some (StaticBool false)) false);
    ("enforce_parameter_schema",
     mkAttribute BoolAttribute None
       "Whether or not the deployment should enforce the parameter schema."
       false true true (Some (StaticBool false)) false);
    ("manifest_path",
     mkAttribute StringAttribute None
       "The path to the flow's manifest file, relative to the chosen storage."
       false true true None true);
    ("work_queue_name",
     mkAttribute StringAttribute None
       "The work queue for the deployment. If no work queue is set, work will not be scheduled."
       false true true None true);
    ("work_pool_name",
     mkAttribute StringAttribute None "The name of the deployment's work pool."
       false true true None true);
    ("description",
     mkAttribute StringAttribute None "A description for the deployment."
       false true true None true);
    ("path",
     mkAttribute StringAttribute None
       "The path to the working directory for the workflow, relative to remote storage or an absolute path."
       false true true None true);
    ("version",
     mkAttribute StringAttribute None "An optional version for the deployment."
       false true true None true);
    ("entrypoint",
     mkAttribute StringAttribute None
       "The path to the entrypoint for the workflow, relative to the path."
       false true true None true);
    ("tags",
     mkAttribute ListAttribute None "Tags associated with the deployment"
       false true true (Some (StaticValue defaultEmptyTagList)) false);
    ("parameters",
     mkAttribute StringAttribute (Some NormalizedType)
       "Parameters for flow runs scheduled by the deployment."
       false true true None false) ].

(** A field of the model, as the framework reads it through its [tfsdk]
    tag. *)
Inductive Value : Type :=
| Value_String (v : types.String)
| Value_Bool (v : types.Bool)
| Value_List (v : types.List)
| Value_Timestamp (v : customtypes.TimestampValue)
| Value_UUID (v : customtypes.UUIDValue)
| Value_Normalized (v : jsontypes.Normalized).

(** The fields of [DeploymentResourceModel] with their [tfsdk] tags, in the
    order of the struct. *)
Definition fields (m : DeploymentResourceModel) : list (string * Value) :=
  [ ("id", Value_String (ID m));
    ("created", Value_Timestamp (Created m));
    ("updated", Value_Timestamp (Updated m));
    ("account_id", Value_UUID (AccountID m));
    ("workspace_id", Value_UUID (WorkspaceID m));
    ("description", Value_String (Description m));
    ("enforce_parameter_schema", Value_Bool (EnforceParameterSchema m));
    ("entrypoint", Value_String (Entrypoint m));
    ("flow_id", Value_UUID (FlowID m));
    ("manifest_path", Value_String (ManifestPath m));
    ("name", Value_String (Name m));
    ("parameters", Value_Normalized (Parameters m));
    ("path", Value_String (Path m));
    ("paused", Value_Bool (Paused m));
    ("tags", Value_List (Tags m));
    ("version", Value_String (Version m));
    ("work_pool_name", Value_String (WorkPoolName m));
    ("work_queue_name", Value_String (WorkQueueName m)) ].

(* ===================================================================== *)
(** ** The vocabulary of the properties *)

(** A method succeeded when it came back to the framework, without a
    panic, and left no error diagnostic in its response. *)
Definition succeeded {S A} (out : Ctl A * Run S Call) : Prop :=
  panicked out = false /\ diag.HasError (Diagnostics out.2) = false.

Definition create_error_diagnostic (err : error) : Diagnostic :=
  diag.NewErrorDiagnostic "Error creating deployment"
    (fmt_Sprintf "Could not create deployment, unexpected error: %s" [Error err]).

(** Every field that is written from the response [d] holds, in the model
    [m], the value of that field of [d]. *)
Definition copied_fields (E : Externals) (m : DeploymentResourceModel)
    (d : api.Deployment) : Prop :=
  ID m = types.StringValue (uuid.String (api.Deployment_ID d))
  /\ Created m = customtypes.NewTimestampPointerValue (api.Deployment_Created d)
  /\ Updated m = customtypes.NewTimestampPointerValue (api.Deployment_Updated d)
  /\ Description m = types.StringValue (api.Deployment_Description d)
  /\ EnforceParameterSchema m = types.BoolValue (api.Deployment_EnforceParameterSchema d)
  /\ Entrypoint m = types.StringValue (api.Deployment_Entrypoint d)
  /\ FlowID m = customtypes.NewUUIDValue (api.Deployment_FlowID d)
  /\ ManifestPath m = types.StringValue (api.Deployment_ManifestPath d)
  /\ Name m = types.StringValue (api.Deployment_Name d)
  /\ Path m = types.StringValue (api.Deployment_Path d)
  /\ Paused m = types.BoolValue (api.Deployment_Paused d)
  /\ Version m = types.StringValue (api.Deployment_Version d)
  /\ WorkPoolName m = types.StringValue (api.Deployment_WorkPoolName d)
  /\ WorkQueueName m = types.StringValue (api.Deployment_WorkQueueName d)
  /\ Tags m = (ListValueFrom E (api.Deployment_Tags d)).1.

(** The state [m] matches the response [d]: the copied fields, and
    [parameters] as the JSON text of the parameters of [d]. *)
Definition matches_response (E : Externals) (m : DeploymentResourceModel)
    (d : api.Deployment) : Prop :=
  copied_fields E m d
  /\ exists bytes,
      json_Marshal E (api.Deployment_Parameters d) = Ok bytes
      /\ Parameters m = jsontypes.NewNormalizedValue bytes.

Definition too_many_parts (id : string) : text :=
  fmt_Sprintf "Expected a maximum of 2 import identifiers, in the form of `id,workspace_id`. Got %q"
    [id].

Definition empty_part (id : string) : text :=
  fmt_Sprintf "Expected non-empty import identifiers, in the form of `id,workspace_id`. Got %q"
    [id].

(** The response [st] with the diagnostics [diags] and the state [s]. *)
Definition response_with {S} (st : Run S Call) (diags : diag.Diagnostics) (s : S)
  : Run S Call :=
  mkRun diags s (calls st).

(** The reading of the claim: an identifier is well formed when it is [id]
    or [id,workspace_id] with each part a valid UUID. *)
Definition is_valid_UUID (s : string) : bool :=
  match uuid.Parse s with Ok _ => true | Err _ => false end.

Definition claimed_well_formed (id : string) : bool :=
  match strings.Split id ","%char with
  | [p0] => is_valid_UUID p0
  | [p0; p1] => is_valid_UUID p0 && is_valid_UUID p1
  | _ => false
  end.

(** The identifier a call addresses the remote record by. *)
Definition call_id (c : Call) : option uuid.UUID :=
  match c with
  | Call_Create _ _ _ => None
  | Call_Get _ _ id => Some id
  | Call_Update _ _ id _ => Some id
  | Call_Delete _ _ id => Some id
  end.

(** The call [c] addresses a record by the UUID that [s] parses to. *)
Definition addressed_by (s : string) (c : Call) : Prop :=
  exists id, call_id c = Some id /\ uuid.Parse s = Ok id.

Definition parse_id_diagnostic (err : error) : Diagnostic :=
  diag.NewAttributeErrorDiagnostic "id" "Error parsing Deployment ID"
    (parse_id_detail err).

(** The method, started on [st] with the model [model] read with the
    diagnostics [get_diags], and ended in [out], refuses an [id] that does
    not parse: it returns with an error diagnostic and without a call. *)
Definition refuses_bad_id (model : DeploymentResourceModel)
    (get_diags : diag.Diagnostics) (st : Run ResourceState Call)
    (out : Ctl () * Run ResourceState Call) : Prop :=
  forall err,
    uuid.Parse (types.ValueString (ID model)) = Err err ->
    out.1 = Return
    /\ calls out.2 = calls st
    /\ diag.HasError (Diagnostics out.2) = true
    /\ (diag.HasError (diag.Append (Diagnostics st) get_diags) = false ->
        parse_id_diagnostic err ∈ Diagnostics out.2).

(** Every call of the method addresses the record by the parsed [id]. *)
Definition calls_by_parsed_id (model : DeploymentResourceModel)
    (st : Run ResourceState Call) (out : Ctl () * Run ResourceState Call) : Prop :=
  exists new,
    calls out.2 = calls st ++ new
    /\ Forall (addressed_by (types.ValueString (ID model))) new.

(** The HTTP requests an accounts method sent: none, or one, made with the
    context [ctx]. *)
Definition sent_at_most_once (ctx : Context) (sent : list http.Request) : Prop :=
  sent = [] \/ exists req, sent = [req] /\ http.Request_ctx req = ctx.

Definition client_error_diagnostic (err : error) : Diagnostic :=
  diag.NewErrorDiagnostic "Error creating deployment client"
    (client_error_detail err).

Definition refresh_error_diagnostic (err : error) : Diagnostic :=
  diag.NewErrorDiagnostic "Error refreshing deployment state"
    (fmt_Sprintf "Could not read Deployment, unexpected error: %s" [Error err]).

(** What [r.client.Deployments] answers for the model [model]. *)
Definition Deployments_for (E : Externals) (r : DeploymentResource)
    (model : DeploymentResourceModel)
  : option api.DeploymentsClient * option error :=
  api.Deployments (client r) (ValueUUID E (AccountID model))
    (ValueUUID E (WorkspaceID model)).

(** What an exchange with the server can run into. *)
Inductive Failure : Type :=
| EncodeFailure (err : error)        (* the payload does not encode *)
| RequestRefused (err : error)       (* the request cannot be built *)
| TransportFailure (err : error)     (* [hc.Do] returns an error *)
| StatusRefused (resp : http.Response)   (* a status code that is not accepted *)
| DecodeFailure (err : error).       (* the body does not decode *)

(** The error a method returns for a failure. *)
Definition reported (f : Failure) : error :=
  match f with
  | EncodeFailure err => fmt_Errorf_w "failed to encode data: " err
  | RequestRefused err => fmt_Errorf_w "error creating request: " err
  | TransportFailure err => fmt_Errorf_w "http error: " err
  | StatusRefused resp => errors_New ("status code " +:+ http.Status resp)
  | DecodeFailure err => fmt_Errorf_w "failed to decode response: " err
  end.

(** The error of a library that a failure comes from, if any. *)
Definition underlying (f : Failure) : option error :=
  match f with
  | EncodeFailure err | RequestRefused err | TransportFailure err
  | DecodeFailure err => Some err
  | StatusRefused _ => None
  end.

Definition accounts_url (c : AccountsClient) (accountID : uuid.UUID) : string :=
  endpoint c +:+ "/accounts/" +:+ uuid.String accountID.

(** The request of [method] on the account, with the default headers, and
    what the HTTP client answers to it. *)
Definition request_sent (X : ClientExternals) (c : AccountsClient) (ctx : Context)
    (method : string) (accountID : uuid.UUID) (body : option string)
  : http.Request :=
  http.mkRequest ctx method (accounts_url c accountID) body
    (default_headers X (apiKey c)).

(** [exchange_fails X c ctx method accountID body accepted f]: sending the
    request fails with [f], before any decoding: the request is refused,
    the transport fails, or the status code is not among the [accepted]. *)
Inductive exchange_fails (X : ClientExternals) (c : AccountsClient) (ctx : Context)
    (method : string) (accountID : uuid.UUID) (body : option string)
    (accepted : list Z) : Failure -> Prop :=
| fails_refused err :
    NewRequest_error X method (accounts_url c accountID) = Some err ->
    exchange_fails X c ctx method accountID body accepted (RequestRefused err)
| fails_transport err :
    NewRequest_error X method (accounts_url c accountID) = None ->
    http.Do (hc c) (request_sent X c ctx method accountID body) = Err err ->
    exchange_fails X c ctx method accountID body accepted (TransportFailure err)
| fails_status resp :
    NewRequest_error X method (accounts_url c accountID) = None ->
    http.Do (hc c) (request_sent X c ctx method accountID body) = Ok resp ->
    http.StatusCode resp ∉ accepted ->
    exchange_fails X c ctx method accountID body accepted (StatusRefused resp).

(** The failures of [Get]: those of the exchange, where only 200 is
    accepted, and a body that does not decode. *)
Inductive Get_fails (X : ClientExternals) (c : AccountsClient) (ctx : Context)
    (accountID : uuid.UUID) : Failure -> Prop :=
| Get_fails_exchange f :
    exchange_fails X c ctx http.MethodGet accountID None [http.StatusOK] f ->
    Get_fails X c ctx accountID f
| Get_fails_decode resp err :
    NewRequest_error X http.MethodGet (accounts_url c accountID) = None ->
    http.Do (hc c) (request_sent X c ctx http.MethodGet accountID None) = Ok resp ->
    http.StatusCode resp = http.StatusOK ->
    Decode_AccountResponse X (http.Response_Body resp) = Err err ->
    Get_fails X c ctx accountID (DecodeFailure err).

(** The failures of [Update]: a payload that does not encode, and those of
    the exchange, where 200 and 204 are accepted. *)
Inductive Update_fails (X : ClientExternals) (c : AccountsClient) (ctx : Context)
    (accountID : uuid.UUID) (data : api.AccountUpdate) : Failure -> Prop :=
| Update_fails_encode err :
    Encode_AccountUpdate X data = Err err ->
    Update_fails X c ctx accountID data (EncodeFailure err)
| Update_fails_exchange buf f :
    Encode_AccountUpdate X data = Ok buf ->
    exchange_fails X c ctx http.MethodPatch accountID (Some buf)
      [http.StatusOK; http.StatusNoContent] f ->
    Update_fails X c ctx accountID data f.

(** The reading of the claim: a failure is a transport failure, a status
    code outside 200..299, or a JSON failure. *)
Definition claimed_failure (X : ClientExternals) (c : AccountsClient) (ctx : Context)
    (accountID : uuid.UUID) : Prop :=
  match http.Do (hc c) (request_sent X c ctx http.MethodGet accountID None) with
  | Err _ => True
  | Ok resp =>
      ¬ (200 <= http.StatusCode resp < 300)%Z
      \/ exists err, Decode_AccountResponse X (http.Response_Body resp) = Err err
  end.

(** Whether every diagnostic of [before] is still among [after]. *)
Definition keeps_diagnostics (before after : diag.Diagnostics) : Prop :=
  forall d, d ∈ before -> d ∈ after.

(** A deployments client that never returns a [nil] deployment together
    with a [nil] error. *)
Definition answers_or_fails (c : api.DeploymentsClient) : Prop :=
  (forall ctx data, api.Create c ctx data <> (None, None))
  /\ (forall ctx id, api.Get c ctx id <> (None, None)).

Definition delete_error_diagnostic (err : error) : Diagnostic :=
  diag.NewErrorDiagnostic "Error deleting Deployment"
    (fmt_Sprintf "Could not delete Deployment, unexpected error: %s" [Error err]).


(** A value that is known: neither null nor unknown. *)
Definition String_known (v : types.String) : bool :=
  match v with types.StringValue _ => true | _ => false end.

Definition Bool_known (v : types.Bool) : bool :=
  match v with types.BoolValue _ => true | _ => false end.

Definition UUID_known (v : customtypes.UUIDValue) : bool :=
  match v with customtypes.NewUUIDValue _ => true | _ => false end.

(** The first entry of a table under a name. *)
Fixpoint entry {A} (name : string) (table : list (string * A)) : option A :=
  match table with
  | [] => None
  | (n, a) :: rest => if decide (n = name) then Some a else entry name rest
  end.

(** Whether a field of the model can hold the values of an attribute: the
    framework's type of the field is the type of the attribute. *)
Definition fits (a : Attribute) (v : Value) : bool :=
  match Attribute_kind a, Attribute_CustomType a, v with
  | StringAttribute, None, Value_String _ => true
  | StringAttribute, Some TimestampType, Value_Timestamp _ => true
  | StringAttribute, Some UUIDType, Value_UUID _ => true
  | StringAttribute, Some NormalizedType, Value_Normalized _ => true
  | BoolAttribute, None, Value_Bool _ => true
  | ListAttribute, None, Value_List _ => true
  | _, _, _ => false
  end.

(* ===================================================================== *)
(** * Properties *)

(** ** Diagnostics only grow *)

Lemma Append_subset (diags new : diag.Diagnostics) (d : Diagnostic) :
  d ∈ diags -> d ∈ diag.Append diags new.
Proof.
  revert diags. induction new as [|n new IH]; intros diags Hd; simpl; [done|].
  destruct (decide (n ∈ diags)); apply IH; [done|].
  apply elem_of_app; by left.
Qed.

Lemma Append_new (diags new : diag.Diagnostics) (d : Diagnostic) :
  d ∈ new -> d ∈ diag.Append diags new.
Proof.
  revert diags. induction new as [|n new IH]; intros diags Hd; simpl.
  - by apply elem_of_nil in Hd.
  - apply elem_of_cons in Hd as [->|Hd].
    + destruct (decide (n ∈ diags)); apply Append_subset; [done|].
      apply elem_of_app; right; by apply list_elem_of_singleton.
    + destruct (decide (n ∈ diags)); by apply IH.
Qed.

Lemma HasError_elem (diags : diag.Diagnostics) (d : Diagnostic) :
  d ∈ diags -> diag.is_error d = true -> diag.HasError diags = true.
Proof.
  intros Hd He. unfold diag.HasError. apply existsb_exists.
  exists d. split; [by apply list_elem_of_In|done].
Qed.

Lemma HasError_Append (diags new : diag.Diagnostics) :
  diag.HasError (diag.Append diags new)
  = diag.HasError diags || diag.HasError new.
Proof.
  revert diags. induction new as [|n new IH]; intros diags; simpl.
  - by rewrite orb_false_r.
  - destruct (decide (n ∈ diags)) as [Hin|Hin]; rewrite IH.
    + destruct (diag.is_error n) eqn:He; simpl; [|done].
      by rewrite (HasError_elem _ _ Hin He).
    + unfold diag.HasError. rewrite existsb_app. simpl.
      rewrite orb_false_r. by rewrite orb_assoc.
Qed.

Lemma HasError_AddError (diags : diag.Diagnostics) (summary : string) (detail : text) :
  diag.HasError (diag.AddError diags summary detail) = true.
Proof. unfold diag.AddError. rewrite HasError_Append. simpl. by rewrite orb_true_r. Qed.

Lemma HasError_AddAttributeError (diags : diag.Diagnostics) (root summary : string)
    (detail : text) :
  diag.HasError (diag.AddAttributeError diags root summary detail) = true.
Proof.
  unfold diag.AddAttributeError. rewrite HasError_Append. simpl.
  by rewrite orb_true_r.
Qed.

Lemma Append_nil (diags : diag.Diagnostics) : diag.Append diags [] = diags.
Proof. done. Qed.

Lemma HasError_ParseUUIDErrorDiagnostic (E : Externals) (name : string) (err : error) :
  diag.HasError [helpers.ParseUUIDErrorDiagnostic E name err] = true.
Proof.
  unfold helpers.ParseUUIDErrorDiagnostic.
  by destruct (ParseUUIDError_text E name err).
Qed.

Lemma HasError_SerializeDataErrorDiagnostic (E : Externals) (pathRoot name : string)
    (err : error) :
  diag.HasError [helpers.SerializeDataErrorDiagnostic E pathRoot name err] = true.
Proof.
  unfold helpers.SerializeDataErrorDiagnostic.
  by destruct (SerializeDataError_text E pathRoot name err).
Qed.

(** ** Unfolding a method body *)

Arguments diag.Append : simpl never.
Arguments diag.AddError : simpl never.
Arguments diag.AddAttributeError : simpl never.
Arguments diag.HasError : simpl never.
Arguments helpers.ParseUUIDErrorDiagnostic : simpl never.
Arguments helpers.SerializeDataErrorDiagnostic : simpl never.
Arguments uuid.Parse : simpl never.
Arguments uuid.String : simpl never.
Arguments strings.Split : simpl never.
Arguments copyDeploymentToModel : simpl never.

Ltac unfold_ops :=
  unfold report_client_error, State_Set, State_SetAttribute,
    client_Create, client_Get, client_Update, client_Delete, index,
    Diagnostics_Append, Diagnostics_AddError, Diagnostics_AddAttributeError,
    return_if_HasError, put_State, get_State, record, return_, panic, start,
    mbind, Op_bind, mret, Op_ret in *.

Ltac has_error_facts :=
  rewrite ?HasError_Append, ?HasError_AddError, ?HasError_AddAttributeError,
    ?HasError_ParseUUIDErrorDiagnostic, ?HasError_SerializeDataErrorDiagnostic,
    ?Append_nil, ?orb_true_r, ?orb_false_r in *;
  repeat match goal with
    | H : _ || _ = false |- _ => apply orb_false_elim in H as [? ?]
    | H : diag.HasError ?x = _, H' : context [diag.HasError ?x] |- _ =>
        rewrite H in H'; simpl in H'
    end.

Ltac step :=
  first
    [ progress simplify_eq/=
    | progress has_error_facts
    | match goal with
      | |- context [let '(_, _) := ?p in _] => destruct p eqn:?
      | H : context [let '(_, _) := ?p in _] |- _ => destruct p eqn:?
      end
    | case_match ].

(** Runs a method symbolically: [out] is what it returns. *)
Ltac run_method f Hrun :=
  unfold f in Hrun; unfold_ops; repeat step; try congruence.

(** ** The fields [copyDeploymentToModel] leaves alone *)

Lemma copyDeploymentToModel_frame (E : Externals) (ctx : Context)
    (deployment : option api.Deployment) (model model' : DeploymentResourceModel)
    (diags : diag.Diagnostics) :
  copyDeploymentToModel E ctx deployment model = Some (model', diags) ->
  AccountID model' = AccountID model
  /\ WorkspaceID model' = WorkspaceID model
  /\ Parameters model' = Parameters model.
Proof.
  unfold copyDeploymentToModel. intros H. repeat step; done.
Qed.

(** C10: [copyDeploymentToModel] leaves the [account_id], [workspace_id] and
    [parameters] fields of the model as they were (every other field of the
    model is one of those it assigns from the deployment), so the state that
    a successful [Create] writes holds the planned [parameters], and the
    planned [account_id] and [workspace_id]. *)
Theorem copyDeploymentToModel_leaves_parameters (E : Externals)
    (r : DeploymentResource) (ctx : Context) :
  (forall deployment model model' diags,
      copyDeploymentToModel E ctx deployment model = Some (model', diags) ->
      AccountID model' = AccountID model
      /\ WorkspaceID model' = WorkspaceID model
      /\ Parameters model' = Parameters model)
  /\ (forall req st,
        succeeded (Create E r ctx req st) ->
        exists m,
          State (Create E r ctx req st).2 = Some m
          /\ Parameters m = Parameters (Get_model (CreateRequest_Config req))
          /\ AccountID m = AccountID (Get_model (CreateRequest_Config req))
          /\ WorkspaceID m = WorkspaceID (Get_model (CreateRequest_Config req))).
Proof.
  split.
  - intros deployment model model' diags. apply copyDeploymentToModel_frame.
  - intros req st [Hp He].
    destruct (Create E r ctx req st) as [c out] eqn:Hrun.
    unfold panicked in Hp. simpl in *.
    run_method Create Hrun.
    all: match goal with
         | H : copyDeploymentToModel _ _ _ _ = Some _ |- _ =>
             apply copyDeploymentToModel_frame in H as (? & ? & ?)
         end.
    all: eexists; split; [reflexivity|]; done.
Qed.

(** ** Reading the recorded calls *)

Lemma calls_not_longer {A} (l : list A) (x : A) : l = l ++ [x] -> False.
Proof.
  intros H. apply (f_equal length) in H. rewrite length_app in H.
  simpl in H. lia.
Qed.

Lemma calls_not_longer2 {A} (l : list A) (x y : A) : l = (l ++ [x]) ++ [y] -> False.
Proof.
  intros H. apply (f_equal length) in H. rewrite !length_app in H.
  simpl in H. lia.
Qed.

Ltac calls_facts :=
  repeat match goal with
    | H : ?l = ?l ++ [_] |- _ => destruct (calls_not_longer _ _ H)
    | H : ?l = (?l ++ [_]) ++ [_] |- _ => destruct (calls_not_longer2 _ _ _ H)
    | H : ?l ++ _ = ?l ++ _ |- _ => apply app_inv_head in H; simplify_eq/=
    | H : ?f = (_, _), H' : ?f = (_, _) |- _ => rewrite H in H'; simplify_eq/=
    | H : ?f = Some _, H' : ?f = None |- _ => rewrite H in H'; discriminate
    | H : ?f = Some _, H' : ?f = Some _ |- _ => rewrite H in H'; simplify_eq/=
    end.

(** C7: when the call of [Create] on the deployments client returns an
    error, [DeploymentResource.Create] reports that error in a diagnostic
    and returns with the state of the response as it was; and whenever
    [Create] changes the state, it has made that call and the call returned
    no error. *)
Theorem Create_error_leaves_state (E : Externals) (r : DeploymentResource)
    (ctx : Context) (req : CreateRequest) (st : Run ResourceState Call) :
  (forall c ctx' data err,
      calls (Create E r ctx req st).2 = calls st ++ [Call_Create c ctx' data] ->
      (api.Create c ctx' data).2 = Some err ->
      ctx' = ctx
      /\ (Create E r ctx req st).1 = Return
      /\ State (Create E r ctx req st).2 = State st
      /\ create_error_diagnostic err ∈ Diagnostics (Create E r ctx req st).2
      /\ diag.HasError (Diagnostics (Create E r ctx req st).2) = true)
  /\ (State (Create E r ctx req st).2 <> State st ->
      exists c data deployment,
        calls (Create E r ctx req st).2 = calls st ++ [Call_Create c ctx data]
        /\ api.Create c ctx data = (deployment, None)).
Proof.
  destruct (Create E r ctx req st) as [k out] eqn:Hrun. simpl.
  split.
  - intros c ctx' data err Hcalls Herr.
    destruct (api.Create c ctx' data) as [deployment err'] eqn:Hcreate.
    simpl in Herr. subst err'.
    run_method Create Hrun; calls_facts; repeat step; try congruence.
    all: repeat split; try done.
    all: try (apply Append_new, list_elem_of_singleton; reflexivity).
    all: unfold diag.AddError; has_error_facts; done.
  - intros Hstate.
    run_method Create Hrun; try done.
    all: eexists _, _, _; split; [reflexivity|]; eassumption.
Qed.

(** ** The state mirrors the response *)

Lemma copyDeploymentToModel_fields (E : Externals) (ctx : Context)
    (deployment : option api.Deployment) (model model' : DeploymentResourceModel)
    (diags : diag.Diagnostics) :
  copyDeploymentToModel E ctx deployment model = Some (model', diags) ->
  diag.HasError diags = false ->
  exists d, deployment = Some d /\ copied_fields E model' d.
Proof.
  unfold copyDeploymentToModel. intros H Hd.
  destruct deployment as [d|]; [|done].
  destruct (ListValueFrom E (api.Deployment_Tags d)) as [tags diags'] eqn:Htags.
  exists d. split; [done|].
  destruct (diag.HasError diags') eqn:He; simplify_eq/=; [congruence|].
  unfold copied_fields. rewrite Htags. simpl. repeat split.
Qed.

Lemma copied_fields_set_Parameters (E : Externals) (m : DeploymentResourceModel)
    (d : api.Deployment) (p : jsontypes.Normalized) :
  copied_fields E m d -> copied_fields E (set_Parameters p m) d.
Proof. unfold copied_fields. by destruct m. Qed.

(** C2: after a successful [Read], and after a successful [Update], the
    state holds the response of the [Get] call: [id] is the string form of
    the response's ID, [created] and [updated] are its timestamps,
    [description], [enforce_parameter_schema], [entrypoint], [flow_id],
    [manifest_path], [name], [path], [paused], [version], [work_pool_name],
    [work_queue_name] and [tags] are its fields, and [parameters] is the
    JSON serialization of its parameters. *)
Theorem state_matches_response (E : Externals) (r : DeploymentResource)
    (ctx : Context) (st : Run ResourceState Call) :
  (forall req,
      succeeded (Read E r ctx req st) ->
      exists c id d m,
        calls (Read E r ctx req st).2 = calls st ++ [Call_Get c ctx id]
        /\ api.Get c ctx id = (Some d, None)
        /\ State (Read E r ctx req st).2 = Some m
        /\ matches_response E m d)
  /\ (forall req,
        succeeded (Update E r ctx req st) ->
        exists c id payload d m,
          calls (Update E r ctx req st).2
          = calls st ++ [Call_Update c ctx id payload; Call_Get c ctx id]
          /\ api.Update c ctx id payload = None
          /\ api.Get c ctx id = (Some d, None)
          /\ State (Update E r ctx req st).2 = Some m
          /\ matches_response E m d).
Proof.
  split.
  - intros req [Hp He].
    destruct (Read E r ctx req st) as [k out] eqn:Hrun.
    unfold panicked in Hp. simpl in *.
    run_method Read Hrun.
    all: match goal with
         | H : copyDeploymentToModel _ _ _ _ = Some _ |- _ =>
             apply copyDeploymentToModel_fields in H as (d' & ? & Hfields);
             [|done]
         end.
    all: simplify_eq/=.
    all: eexists _, _, _, _; split; [reflexivity|].
    all: split; [eassumption|]; split; [reflexivity|].
    all: split; [by apply copied_fields_set_Parameters|].
    all: eexists; split; [eassumption|reflexivity].
  - intros req [Hp He].
    destruct (Update E r ctx req st) as [k out] eqn:Hrun.
    unfold panicked in Hp. simpl in *.
    run_method Update Hrun.
    all: match goal with
         | H : copyDeploymentToModel _ _ _ _ = Some _ |- _ =>
             apply copyDeploymentToModel_fields in H as (d' & ? & Hfields);
             [|done]
         end.
    all: simplify_eq/=.
    all: eexists _, _, _, _, _; split; [by rewrite <- app_assoc|].
    all: split; [eassumption|]; split; [eassumption|]; split; [reflexivity|].
    all: split; [by apply copied_fields_set_Parameters|].
    all: eexists; split; [eassumption|reflexivity].
Qed.

(** ** Import identifiers *)

Lemma Split_nonempty (s : string) (sep : ascii) : strings.Split s sep <> [].
Proof.
  destruct s as [|c rest]; unfold strings.Split; fold strings.Split; [done|].
  destruct (decide (c = sep)); [done|].
  by destruct (strings.Split rest sep).
Qed.

(** The three shapes of the pieces of an identifier. *)
Lemma ImportState_too_many (E : Externals) (r : DeploymentResource)
    (ctx : Context) (req : ImportStateRequest) (st : Run ImportedState Call) :
  2 < length (strings.Split (ImportStateRequest_ID req) ","%char) ->
  ImportState E r ctx req st
  = (Return,
     response_with st
       (diag.AddError (Diagnostics st) "Unexpected Import Identifier"
          (too_many_parts (ImportStateRequest_ID req)))
       (State st)).
Proof.
  intros Hlen. unfold ImportState.
  destruct (decide (2 < length (strings.Split (ImportStateRequest_ID req) ","%char)));
    [done|lia].
Qed.

Lemma ImportState_one (E : Externals) (r : DeploymentResource)
    (ctx : Context) (req : ImportStateRequest) (st : Run ImportedState Call)
    (p0 : string) :
  strings.Split (ImportStateRequest_ID req) ","%char = [p0] ->
  ImportState E r ctx req st
  = (Next (), response_with st (Diagnostics st) (<["id" := p0]> (State st))).
Proof.
  intros Hparts. unfold ImportState. rewrite Hparts.
  unfold response_with. unfold_ops. simpl. by rewrite Append_nil.
Qed.

Lemma ImportState_two (E : Externals) (r : DeploymentResource)
    (ctx : Context) (req : ImportStateRequest) (st : Run ImportedState Call)
    (p0 p1 : string) :
  strings.Split (ImportStateRequest_ID req) ","%char = [p0; p1] ->
  ImportState E r ctx req st
  = if bool_decide (p0 = "") || bool_decide (p1 = "") then
      (Return,
       response_with st
         (diag.AddError (Diagnostics st) "Unexpected Import Identifier"
            (empty_part (ImportStateRequest_ID req)))
         (State st))
    else
      match uuid.Parse p1 with
      | Ok workspaceID =>
          (Next (),
           response_with st (Diagnostics st)
             (<["workspace_id" := uuid.String workspaceID]>
                (<["id" := p0]> (State st))))
      | Err err =>
          (Return,
           response_with st
             (diag.Append (Diagnostics st)
                [helpers.ParseUUIDErrorDiagnostic E "Deployment" err])
             (<["id" := p0]> (State st)))
      end.
Proof.
  intros Hparts. unfold ImportState. rewrite Hparts.
  unfold response_with. unfold_ops. simpl.
  destruct (decide (p0 = "")) as [-> | Hp0]; simpl; [done|].
  rewrite (bool_decide_eq_false_2 (p0 = "")) by done. simpl.
  destruct (decide (p1 = "")) as [-> | Hp1]; simpl; [done|].
  rewrite !(bool_decide_eq_false_2 (p1 = "")) by done. simpl.
  destruct (uuid.Parse p1) as [workspaceID|err]; simpl; by rewrite !Append_nil.
Qed.

(** C1: for every import identifier, with [parts] its pieces between the
    commas (there is at least one): with more than 2 parts,
    [ImportState] adds an error diagnostic and returns with the state as it
    was; with exactly 2 parts of which one is empty, the same; otherwise it
    sets the attribute [id] to the first part and, when there is a second
    part, which is then not empty, parses it as a UUID: if that fails it
    adds an error diagnostic and returns, else it sets [workspace_id] to the
    canonical string form of the parsed UUID. *)
Theorem ImportState_behaviour (E : Externals) (r : DeploymentResource)
    (ctx : Context) (req : ImportStateRequest) (st : Run ImportedState Call) :
  let id := ImportStateRequest_ID req in
  let parts := strings.Split id ","%char in
  let out := ImportState E r ctx req st in
  1 <= length parts
  /\ (2 < length parts ->
      out = (Return,
             response_with st
               (diag.AddError (Diagnostics st) "Unexpected Import Identifier"
                  (too_many_parts id))
               (State st))
      /\ diag.HasError (Diagnostics out.2) = true)
  /\ (forall p0 p1,
        parts = [p0; p1] -> p0 = "" \/ p1 = "" ->
        out = (Return,
               response_with st
                 (diag.AddError (Diagnostics st) "Unexpected Import Identifier"
                    (empty_part id))
                 (State st))
        /\ diag.HasError (Diagnostics out.2) = true)
  /\ (forall p0,
        parts = [p0] ->
        out = (Next (), response_with st (Diagnostics st) (<["id" := p0]> (State st))))
  /\ (forall p0 p1,
        parts = [p0; p1] -> p0 <> "" -> p1 <> "" ->
        match uuid.Parse p1 with
        | Ok workspaceID =>
            out = (Next (),
                   response_with st (Diagnostics st)
                     (<["workspace_id" := uuid.String workspaceID]>
                        (<["id" := p0]> (State st))))
        | Err err =>
            out = (Return,
                   response_with st
                     (diag.Append (Diagnostics st)
                        [helpers.ParseUUIDErrorDiagnostic E "Deployment" err])
                     (<["id" := p0]> (State st)))
            /\ diag.HasError (Diagnostics out.2) = true
        end).
Proof.
  intros id parts out. subst out parts id.
  pose proof (Split_nonempty (ImportStateRequest_ID req) ","%char) as Hne.
  split; [destruct (strings.Split _ _); [done|simpl; lia]|].
  split; [|split; [|split]].
  - intros Hlen. rewrite ImportState_too_many by done.
    split; [done|]. simpl. apply HasError_AddError.
  - intros p0 p1 Hparts Hempty. rewrite (ImportState_two _ _ _ _ _ p0 p1) by done.
    assert (bool_decide (p0 = "") || bool_decide (p1 = "") = true) as ->.
    { destruct Hempty as [-> | ->]; [done|]. by rewrite orb_true_r. }
    split; [done|]. simpl. apply HasError_AddError.
  - intros p0 Hparts. by apply ImportState_one.
  - intros p0 p1 Hparts Hp0 Hp1. rewrite (ImportState_two _ _ _ _ _ p0 p1) by done.
    rewrite !bool_decide_eq_false_2 by done. simpl.
    destruct (uuid.Parse p1) as [workspaceID|err]; [done|].
    split; [done|]. simpl.
    rewrite HasError_Append, HasError_ParseUUIDErrorDiagnostic.
    by rewrite orb_true_r.
Qed.

(** C4, as amended: [ImportState] returns an error diagnostic for every
    identifier with more than two parts, for every identifier with two
    parts of which one is empty, and for every identifier whose second part
    does not parse as a UUID.  The first part is not checked: an identifier
    that is one non-empty part is imported as the [id], whatever it is,
    without a diagnostic. *)
Theorem ImportState_rejects (E : Externals) (r : DeploymentResource)
    (ctx : Context) (req : ImportStateRequest) (st : Run ImportedState Call) :
  let parts := strings.Split (ImportStateRequest_ID req) ","%char in
  let out := ImportState E r ctx req st in
  (2 < length parts -> diag.HasError (Diagnostics out.2) = true)
  /\ (forall p0 p1,
        parts = [p0; p1] ->
        p0 = "" \/ p1 = "" \/ is_valid_UUID p1 = false ->
        diag.HasError (Diagnostics out.2) = true)
  /\ (forall p0,
        parts = [p0] -> p0 <> "" ->
        out.1 = Next ()
        /\ Diagnostics out.2 = Diagnostics st
        /\ State out.2 !! "id" = Some p0).
Proof.
  intros parts out. subst out parts. split; [|split].
  - intros Hlen. rewrite ImportState_too_many by done. simpl.
    apply HasError_AddError.
  - intros p0 p1 Hparts Hbad. rewrite (ImportState_two _ _ _ _ _ p0 p1) by done.
    destruct (bool_decide (p0 = "") || bool_decide (p1 = "")) eqn:Hempty; simpl.
    { apply HasError_AddError. }
    apply orb_false_elim in Hempty as [H0%bool_decide_eq_false H1%bool_decide_eq_false].
    destruct Hbad as [? | [? | Hbad]]; [done|done|].
    unfold is_valid_UUID in Hbad.
    destruct (uuid.Parse p1) as [workspaceID|err]; [done|]. simpl.
    rewrite HasError_Append, HasError_ParseUUIDErrorDiagnostic.
    by rewrite orb_true_r.
  - intros p0 Hparts Hp0. rewrite (ImportState_one _ _ _ _ _ p0) by done. simpl.
    repeat split. apply lookup_insert_eq.
Qed.

(** The identifier [foo] is not of the claimed form, its [id] part being no
    UUID, and [ImportState] imports it without any diagnostic. *)
Lemma ImportState_accepts_foo :
  let out :=
    ImportState demo.E demo.resource demo.ctx
      {| ImportStateRequest_ID := "foo" |} (start ∅) in
  claimed_well_formed "foo" = false
  /\ is_valid_UUID "foo" = false
  /\ diag.HasError (Diagnostics out.2) = false
  /\ Diagnostics out.2 = []
  /\ State out.2 !! "id" = Some "foo".
Proof. vm_compute. repeat split. Qed.

Lemma ImportState_rejects_witness :
  diag.HasError
    (Diagnostics
       (ImportState demo.E demo.resource demo.ctx
          {| ImportStateRequest_ID := "a,b,c" |} (start ∅)).2) = true
  /\ diag.HasError
       (Diagnostics
          (ImportState demo.E demo.resource demo.ctx
             {| ImportStateRequest_ID := "a,b" |} (start ∅)).2) = true
  /\ State
       (ImportState demo.E demo.resource demo.ctx
          {| ImportStateRequest_ID := "my-deployment" |} (start ∅)).2 !! "id"
     = Some "my-deployment".
Proof.
  split; [|split].
  - apply (ImportState_rejects demo.E demo.resource demo.ctx
             {| ImportStateRequest_ID := "a,b,c" |} (start ∅)).
    vm_compute. lia.
  - destruct (ImportState_rejects demo.E demo.resource demo.ctx
                {| ImportStateRequest_ID := "a,b" |} (start ∅)) as (_ & H & _).
    apply (H "a" "b"); [reflexivity|].
    right; right. reflexivity.
  - destruct (ImportState_rejects demo.E demo.resource demo.ctx
                {| ImportStateRequest_ID := "my-deployment" |} (start ∅))
      as (_ & _ & H).
    apply (H "my-deployment"); [reflexivity|discriminate].
Defined.

(** ** The identifier of every call is the parsed [id] *)

Ltac null_facts :=
  repeat match goal with
    | H : types.String_IsNull ?x = _, H' : negb (types.String_IsNull ?x) = _ |- _ =>
        rewrite H in H'; simpl in H'
    end.

(** Names the calls a method added to those of [st]. *)
Ltac new_calls :=
  match goal with
  | |- exists new, (?l ++ [?a]) ++ [?b] = ?l ++ new /\ _ =>
      exists [a; b]; split; [by rewrite <- app_assoc|]
  | |- exists new, ?l ++ [?a] = ?l ++ new /\ _ =>
      exists [a]; split; [done|]
  | |- exists new, ?l = ?l ++ new /\ _ =>
      exists []; split; [by rewrite app_nil_r|]
  end.

Ltac all_addressed :=
  repeat (apply Forall_cons_2; [eexists; split; [reflexivity|eassumption]|]);
  apply Forall_nil_2.

(** C5, as amended: [Update] and [Delete] parse the stored [id] as a UUID,
    and [Read] does whenever the [id] is not null; when the parsing fails
    the method adds an error diagnostic and returns without a call on the
    API.  With a null [id], [Read] parses nothing and makes no call.  Every
    call that [Read], [Update] or [Delete] makes addresses the record by the
    UUID the stored [id] parses to. *)
Theorem calls_use_parsed_id (E : Externals) (r : DeploymentResource)
    (ctx : Context) (st : Run ResourceState Call) :
  (forall req,
      let model := Get_model (ReadRequest_State req) in
      let out := Read E r ctx req st in
      (types.String_IsNull (ID model) = false ->
       refuses_bad_id model (Get_diags (ReadRequest_State req)) st out)
      /\ (types.String_IsNull (ID model) = true -> calls out.2 = calls st)
      /\ calls_by_parsed_id model st out)
  /\ (forall req,
        let model := Get_model (UpdateRequest_Plan req) in
        let out := Update E r ctx req st in
        refuses_bad_id model (Get_diags (UpdateRequest_Plan req)) st out
        /\ calls_by_parsed_id model st out)
  /\ (forall req,
        let model := Get_model (DeleteRequest_State req) in
        let out := Delete E r ctx req st in
        refuses_bad_id model (Get_diags (DeleteRequest_State req)) st out
        /\ calls_by_parsed_id model st out).
Proof.
  unfold refuses_bad_id, calls_by_parsed_id.
  split; [|split]; intros req.
  - destruct (Read E r ctx req st) as [k o] eqn:Hrun. simpl.
    split; [|split].
    + intros Hnull err Herr.
      run_method Read Hrun; null_facts; try done.
      all: repeat split; try done; has_error_facts; try done.
      all: intros; repeat step; try congruence.
      all: apply Append_new, list_elem_of_singleton; reflexivity.
    + intros Hnull. run_method Read Hrun; null_facts; done.
    + run_method Read Hrun; new_calls; all_addressed.
  - destruct (Update E r ctx req st) as [k o] eqn:Hrun. simpl.
    split.
    + intros err Herr.
      run_method Update Hrun.
      all: repeat split; try done; has_error_facts; try done.
      all: intros; repeat step; try congruence.
      all: apply Append_new, list_elem_of_singleton; reflexivity.
    + run_method Update Hrun; new_calls; all_addressed.
  - destruct (Delete E r ctx req st) as [k o] eqn:Hrun. simpl.
    split.
    + intros err Herr.
      run_method Delete Hrun.
      all: repeat split; try done; has_error_facts; try done.
      all: intros; repeat step; try congruence.
      all: apply Append_new, list_elem_of_singleton; reflexivity.
    + run_method Delete Hrun; new_calls; all_addressed.
Qed.

(** With a null [id] and a working client, the stored [id] string does not
    parse, and [Read] neither adds a diagnostic nor returns: it panics. *)
Lemma Read_null_id_not_parsed :
  let model := demo.with_ID types.StringNull demo.plan in
  let out :=
    Read demo.E demo.resource demo.ctx
      {| ReadRequest_State := demo.data model |} (start None) in
  is_valid_UUID (types.ValueString (ID model)) = false
  /\ Diagnostics out.2 = []
  /\ out.1 = Panic nil_deployment.
Proof. vm_compute. done. Qed.

Lemma calls_use_parsed_id_witness :
  let req :=
    {| DeleteRequest_State :=
         demo.data (demo.with_ID (types.StringValue "nope") demo.plan) |} in
  (Delete demo.E demo.resource demo.ctx req (start None)).1 = Return
  /\ calls (Delete demo.E demo.resource demo.ctx req (start None)).2 = [].
Proof.
  intros req.
  destruct (calls_use_parsed_id demo.E demo.resource demo.ctx (start None))
    as (_ & _ & H).
  destruct (H req) as [Hrefuses _].
  destruct (Hrefuses (errors_New "invalid UUID length: 4")) as (H1 & H2 & _).
  - reflexivity.
  - split; [exact H1|exact H2].
Defined.

(** ** The calls of one operation *)

(** [Update] with a working client makes two calls on the API. *)
Lemma Update_makes_two_calls :
  let out :=
    Update demo.E demo.resource demo.ctx
      {| UpdateRequest_Plan := demo.data demo.plan |} (start None) in
  succeeded out
  /\ calls out.2
     = [Call_Update demo.server demo.ctx demo.id
          (api.mkDeploymentUpdate "old text" false "flows/etl.py:main" "" (Some ∅)
             "" true (Some []) "" "" "");
        Call_Get demo.server demo.ctx demo.id]
  /\ length (calls out.2) = 2.
Proof. vm_compute. done. Qed.

(** C6, as amended: [Create], [Read] and [Delete] each make at most one
    call on the API client, and [Update] makes at most two: one [Update]
    and, when that returned no error, one [Get].  Every call is handed the
    context of the caller, and no call is made a second time.  Each method
    of the accounts client hands at most one request to the HTTP client,
    made with the context of the caller. *)
Theorem calls_per_operation (E : Externals) (X : ClientExternals)
    (r : DeploymentResource) (ctx : Context) (st : Run ResourceState Call) :
  (forall req,
      exists new,
        calls (Create E r ctx req st).2 = calls st ++ new
        /\ (new = [] \/ exists c data, new = [Call_Create c ctx data]))
  /\ (forall req,
        exists new,
          calls (Read E r ctx req st).2 = calls st ++ new
          /\ (new = [] \/ exists c id, new = [Call_Get c ctx id]))
  /\ (forall req,
        exists new,
          calls (Delete E r ctx req st).2 = calls st ++ new
          /\ (new = [] \/ exists c id, new = [Call_Delete c ctx id]))
  /\ (forall req,
        exists new,
          calls (Update E r ctx req st).2 = calls st ++ new
          /\ (new = []
              \/ (exists c id payload, new = [Call_Update c ctx id payload])
              \/ (exists c id payload,
                    api.Update c ctx id payload = None
                    /\ new = [Call_Update c ctx id payload; Call_Get c ctx id])))
  /\ (forall c accountID,
        sent_at_most_once ctx (Accounts_Get X c ctx accountID).2)
  /\ (forall c accountID data,
        sent_at_most_once ctx (Accounts_Update X c ctx accountID data).2)
  /\ (forall c accountID,
        sent_at_most_once ctx (Accounts_Delete X c ctx accountID).2).
Proof.
  repeat split.
  - intros req. destruct (Create E r ctx req st) as [k o] eqn:Hrun. simpl.
    run_method Create Hrun; new_calls; eauto.
  - intros req. destruct (Read E r ctx req st) as [k o] eqn:Hrun. simpl.
    run_method Read Hrun; new_calls; eauto.
  - intros req. destruct (Delete E r ctx req st) as [k o] eqn:Hrun. simpl.
    run_method Delete Hrun; new_calls; eauto.
  - intros req. destruct (Update E r ctx req st) as [k o] eqn:Hrun. simpl.
    run_method Update Hrun; new_calls; eauto 8.
  - intros c accountID. unfold Accounts_Get, NewRequestWithContext, sent_at_most_once.
    repeat case_match; simplify_eq/=; eauto.
  - intros c accountID data.
    unfold Accounts_Update, NewRequestWithContext, sent_at_most_once.
    repeat case_match; simplify_eq/=; eauto.
  - intros c accountID.
    unfold Accounts_Delete, NewRequestWithContext, sent_at_most_once.
    repeat case_match; simplify_eq/=; eauto.
Qed.

(** ** A null [id], and a client that could not be built *)

(** With a null [id] and a deployments client that could not be built,
    [Read] returns with two error diagnostics: it does not reach
    [copyDeploymentToModel], and does not panic. *)
Lemma Read_null_id_client_error_returns :
  let model := demo.with_ID types.StringNull demo.plan in
  let out :=
    Read demo.E demo.unconfigured demo.ctx
      {| ReadRequest_State := demo.data model |} (start None) in
  types.String_IsNull (ID model) = true
  /\ out.1 = Return
  /\ out.1 <> Panic nil_deployment
  /\ Diagnostics out.2
     = [client_error_diagnostic demo.no_workspace;
        refresh_error_diagnostic demo.no_workspace]
  /\ calls out.2 = [].
Proof. vm_compute. done. Qed.

(** C8, as amended: when [Read] is invoked on a state whose [id] is null,
    it makes no call on the API; when moreover the state was read without
    an error and the deployments client was built without an error, the
    deployment pointer is still [nil] when [Read] calls
    [copyDeploymentToModel], which dereferences it: [Read] panics, with the
    response as the framework handed it over.  There are inputs of [Read]
    that do so. *)
Theorem Read_null_id_dereferences_nil (E : Externals) (r : DeploymentResource)
    (ctx : Context) (req : ReadRequest) (st : Run ResourceState Call) :
  let model := Get_model (ReadRequest_State req) in
  let out := Read E r ctx req st in
  types.String_IsNull (ID model) = true ->
  calls out.2 = calls st
  /\ (diag.HasError (Diagnostics st) = false ->
      diag.HasError (Get_diags (ReadRequest_State req)) = false ->
      forall c,
        Deployments_for E r model = (c, None) ->
        copyDeploymentToModel E ctx None model = None
        /\ out.1 = Panic nil_deployment
        /\ State out.2 = State st
        /\ diag.HasError (Diagnostics out.2) = false)
  /\ (exists r' req',
        types.String_IsNull (ID (Get_model (ReadRequest_State req'))) = true
        /\ (Read E r' ctx req' (start None)).1 = Panic nil_deployment).
Proof.
  intros model out Hnull. subst out model. unfold Deployments_for.
  split; [|split].
  - destruct (Read E r ctx req st) as [k o] eqn:Hrun. simpl.
    run_method Read Hrun; null_facts; done.
  - intros Hst Hget c Hclient.
    split; [done|].
    destruct (Read E r ctx req st) as [k o] eqn:Hrun. simpl.
    run_method Read Hrun; null_facts; calls_facts; try done.
    all: repeat split; try done; has_error_facts.
    all: by rewrite Hst, Hget.
  - exists (mkDeploymentResource (api.mkPrefectClient (fun _ _ => (None, None)))).
    exists {| ReadRequest_State :=
                mktfsdk_Data (demo.with_ID types.StringNull demo.plan) [] |}.
    split; reflexivity.
Qed.

Lemma Read_null_id_dereferences_nil_witness :
  (Read demo.E demo.resource demo.ctx
     {| ReadRequest_State :=
          demo.data (demo.with_ID types.StringNull demo.plan) |}
     (start None)).1 = Panic nil_deployment.
Proof.
  destruct (Read_null_id_dereferences_nil demo.E demo.resource demo.ctx
              {| ReadRequest_State :=
                   demo.data (demo.with_ID types.StringNull demo.plan) |}
              (start None)) as (_ & H & _).
  - reflexivity.
  - destruct (H eq_refl eq_refl (Some demo.server)) as (_ & Hpanic & _).
    + reflexivity.
    + exact Hpanic.
Defined.

(** Finds a diagnostic among those a method added. *)
Ltac diag_elem :=
  unfold diag.AddError, diag.AddAttributeError;
  repeat first
    [ solve [apply Append_new, list_elem_of_singleton; reflexivity]
    | apply Append_subset ].

(** With a null [id], [Read] parses nothing and calls no method of the
    client that came with the error; and [Delete] calls none when the [id]
    does not parse. *)
Lemma client_error_without_call :
  let read :=
    Read demo.E demo.half_configured demo.ctx
      {| ReadRequest_State :=
           demo.data (demo.with_ID types.StringNull demo.plan) |}
      (start None) in
  let delete :=
    Delete demo.E demo.half_configured demo.ctx
      {| DeleteRequest_State :=
           demo.data (demo.with_ID (types.StringValue "nope") demo.plan) |}
      (start None) in
  Deployments_for demo.E demo.half_configured demo.plan
  = (Some demo.server, Some demo.no_workspace)
  /\ read.1 = Return /\ calls read.2 = []
  /\ delete.1 = Return /\ calls delete.2 = [].
Proof. vm_compute. done. Qed.

(** C9, as amended: when building the deployments client returns an error,
    [Read] and [Delete] add an error diagnostic and do not return at that
    point.  [Delete] goes on to parse the [id], and [Read] does when the
    [id] is not null; when the [id] parses, the method ([Get] or [Delete])
    is invoked on the client value that came with the error, which panics
    when that value is [nil].  When the [id] is null ([Read]) or does not
    parse, the operation returns without a call. *)
Theorem client_error_does_not_stop (E : Externals) (r : DeploymentResource)
    (ctx : Context) (st : Run ResourceState Call) :
  (forall req c err,
      let model := Get_model (ReadRequest_State req) in
      let out := Read E r ctx req st in
      diag.HasError (Diagnostics st) = false ->
      diag.HasError (Get_diags (ReadRequest_State req)) = false ->
      Deployments_for E r model = (c, Some err) ->
      client_error_diagnostic err ∈ Diagnostics out.2
      /\ (types.String_IsNull (ID model) = false ->
          forall id,
            uuid.Parse (types.ValueString (ID model)) = Ok id ->
            match c with
            | Some c' => calls out.2 = calls st ++ [Call_Get c' ctx id]
            | None => out.1 = Panic nil_client /\ calls out.2 = calls st
            end)
      /\ (types.String_IsNull (ID model) = false ->
          forall e,
            uuid.Parse (types.ValueString (ID model)) = Err e ->
            out.1 = Return /\ calls out.2 = calls st)
      /\ (types.String_IsNull (ID model) = true ->
          out.1 = Return /\ calls out.2 = calls st))
  /\ (forall req c err,
        let model := Get_model (DeleteRequest_State req) in
        let out := Delete E r ctx req st in
        diag.HasError (Diagnostics st) = false ->
        diag.HasError (Get_diags (DeleteRequest_State req)) = false ->
        Deployments_for E r model = (c, Some err) ->
        client_error_diagnostic err ∈ Diagnostics out.2
        /\ (forall id,
              uuid.Parse (types.ValueString (ID model)) = Ok id ->
              match c with
              | Some c' => calls out.2 = calls st ++ [Call_Delete c' ctx id]
              | None => out.1 = Panic nil_client /\ calls out.2 = calls st
              end)
        /\ (forall e,
              uuid.Parse (types.ValueString (ID model)) = Err e ->
              out.1 = Return /\ calls out.2 = calls st)).
Proof.
  unfold Deployments_for. split.
  - intros req c err Hst Hget Hclient.
    destruct (Read E r ctx req st) as [k o] eqn:Hrun. simpl.
    split; [|split; [|split]].
    + run_method Read Hrun.
      all: diag_elem.
    + intros Hnull id Hid.
      run_method Read Hrun; null_facts; done.
    + intros Hnull e He.
      run_method Read Hrun; null_facts; done.
    + intros Hnull.
      run_method Read Hrun; null_facts; done.
  - intros req c err Hst Hget Hclient.
    destruct (Delete E r ctx req st) as [k o] eqn:Hrun. simpl.
    split; [|split].
    + run_method Delete Hrun.
      all: diag_elem.
    + intros id Hid. run_method Delete Hrun; done.
    + intros e He. run_method Delete Hrun; done.
Qed.

Lemma client_error_does_not_stop_witness :
  calls
    (Delete demo.E demo.half_configured demo.ctx
       {| DeleteRequest_State := demo.data demo.plan |} (start None)).2
  = [Call_Delete demo.server demo.ctx demo.id].
Proof.
  destruct (client_error_does_not_stop demo.E demo.half_configured demo.ctx
              (start None)) as [_ H].
  destruct (H {| DeleteRequest_State := demo.data demo.plan |}
              (Some demo.server) demo.no_workspace eq_refl eq_refl eq_refl)
    as (_ & Hcall & _).
  exact (Hcall demo.id eq_refl).
Defined.

(** ** Errors of the accounts client *)

(** A server that answers 201 to [Get]: there is no transport failure, the
    status code is a 2xx and the body decodes, and [Get] returns an error,
    which wraps no other error. *)
Lemma Accounts_Get_refuses_201 :
  let c := demo.answering 201 "201 Created" in
  let out := Accounts_Get demo.X c demo.ctx demo.id in
  ¬ claimed_failure demo.X c demo.ctx demo.id
  /\ out.1 = (None, Some (errors_New "status code 201 Created"))
  /\ Unwrap (errors_New "status code 201 Created") = None.
Proof.
  split; [|split; reflexivity].
  unfold claimed_failure. simpl. intros [H | [err H]].
  - apply H. lia.
  - discriminate.
Qed.

(** Names the failure behind the error of a goal. *)
Ltac pick_failure :=
  match goal with
  | |- exists f, _ /\ fmt_Errorf_w "error creating request: " ?e = _ =>
      exists (RequestRefused e)
  | |- exists f, _ /\ fmt_Errorf_w "http error: " ?e = _ =>
      exists (TransportFailure e)
  | |- exists f, _ /\ fmt_Errorf_w "failed to decode response: " ?e = _ =>
      exists (DecodeFailure e)
  | |- exists f, _ /\ fmt_Errorf_w "failed to encode data: " ?e = _ =>
      exists (EncodeFailure e)
  | |- exists f, _ /\ errors_New ("status code " +:+ http.Status ?r) = _ =>
      exists (StatusRefused r)
  end.

Ltac solve_exchange_fails :=
  repeat match goal with H : decide _ = _ |- _ => clear H end;
  first
    [ apply fails_refused; done
    | apply fails_transport; done
    | apply fails_status; [done|done|];
      rewrite ?elem_of_cons, elem_of_nil; tauto ].

(** Rewrites the goal with the answers the hypotheses give. *)
Ltac use_equations :=
  repeat match goal with
    | H : ?x = _ |- context [?x] => rewrite H; simpl
    end.

(** C3, as amended: [Get] returns an error exactly when the request cannot
    be built, the transport fails, the status code is not 200, or the body
    does not decode; [Update] and [Delete] return an error exactly when the
    payload does not encode ([Update]), the request cannot be built, the
    transport fails, or the status code is neither 200 nor 204.  The error
    returned wraps the error of the failing step as it is, and for a status
    code it is made of the status text and wraps nothing.  When there is no
    failure [Get] returns the decoded account.  No method hands more than
    one request to the HTTP client. *)
Theorem Accounts_errors (X : ClientExternals) (c : AccountsClient) (ctx : Context)
    (accountID : uuid.UUID) :
  (forall e,
      (Accounts_Get X c ctx accountID).1.2 = Some e
      <-> exists f, Get_fails X c ctx accountID f /\ e = reported f)
  /\ ((Accounts_Get X c ctx accountID).1.2 = None ->
      exists resp account,
        http.Do (hc c) (request_sent X c ctx http.MethodGet accountID None) = Ok resp
        /\ Decode_AccountResponse X (http.Response_Body resp) = Ok account
        /\ (Accounts_Get X c ctx accountID).1.1 = Some account)
  /\ (forall data e,
        (Accounts_Update X c ctx accountID data).1 = Some e
        <-> exists f, Update_fails X c ctx accountID data f /\ e = reported f)
  /\ (forall e,
        (Accounts_Delete X c ctx accountID).1 = Some e
        <-> exists f,
              exchange_fails X c ctx http.MethodDelete accountID None
                [http.StatusOK; http.StatusNoContent] f
              /\ e = reported f)
  /\ (forall f,
        match underlying f with
        | Some err => Unwrap (reported f) = Some err
        | None => Unwrap (reported f) = None
        end)
  /\ length (Accounts_Get X c ctx accountID).2 <= 1
  /\ (forall data, length (Accounts_Update X c ctx accountID data).2 <= 1)
  /\ length (Accounts_Delete X c ctx accountID).2 <= 1.
Proof.
  assert (Hreq : forall method body,
             NewRequestWithContext X ctx method (accounts_url c accountID) body
             = match NewRequest_error X method (accounts_url c accountID) with
               | Some err => Err err
               | None => Ok (http.mkRequest ctx method (accounts_url c accountID) body [])
               end).
  { intros. unfold NewRequestWithContext. by case_match. }
  split; [|split; [|split; [|split; [|split; [|split; [|split]]]]]].
  - intros e. unfold Accounts_Get. fold (accounts_url c accountID).
    rewrite Hreq. unfold setDefaultHeaders, status_error. simpl.
    split.
    + intros H. repeat case_match; simplify_eq/=; pick_failure.
      all: split; [|reflexivity].
      all: first
             [ apply Get_fails_exchange; solve_exchange_fails
             | eapply Get_fails_decode; [done|done|by apply dec_stable|done] ].
    + intros (f & Hf & ->).
      destruct Hf as [f Hf | resp err H1 H2 H3 H4]; [destruct Hf|];
        unfold request_sent in *; use_equations; try done.
      destruct (decide _) as [?|Hn]; [done|].
      exfalso. apply Hn. intros Hcode.
      match goal with
      | H : _ ∉ _ |- _ => apply H; rewrite Hcode; apply list_elem_of_here
      end.
  - unfold Accounts_Get. fold (accounts_url c accountID).
    rewrite Hreq. unfold setDefaultHeaders, status_error. simpl.
    intros H. repeat case_match; simplify_eq/=. eauto.
  - intros data e. unfold Accounts_Update. fold (accounts_url c accountID).
    split.
    + intros H. destruct (Encode_AccountUpdate X data) as [buf|err] eqn:Hbuf.
      * rewrite Hreq in H. unfold setDefaultHeaders, status_error in H. simpl in H.
        repeat case_match; simplify_eq/=; pick_failure.
        all: split; [|reflexivity]; apply Update_fails_exchange with (buf := buf);
          [done|solve_exchange_fails].
      * simplify_eq/=. pick_failure. split; [|reflexivity].
        by apply Update_fails_encode.
    + intros (f & Hf & ->).
      destruct Hf as [err Henc | buf f Henc Hf]; rewrite Henc; [done|].
      rewrite Hreq. unfold setDefaultHeaders, status_error. simpl.
      destruct Hf; unfold request_sent in *; use_equations; try done.
      destruct (decide _) as [?|Hn]; [done|].
      exfalso. apply Hn.
      match goal with
      | H : _ ∉ _ |- _ =>
          split; intros Hcode; apply H; rewrite Hcode;
          rewrite ?elem_of_cons; tauto
      end.
  - intros e. unfold Accounts_Delete. fold (accounts_url c accountID).
    rewrite Hreq. unfold setDefaultHeaders, status_error. simpl.
    split.
    + intros H. repeat case_match; simplify_eq/=; pick_failure.
      all: split; [|reflexivity]; solve_exchange_fails.
    + intros (f & Hf & ->).
      destruct Hf; unfold request_sent in *; use_equations; try done.
      destruct (decide _) as [?|Hn]; [done|].
      exfalso. apply Hn.
      match goal with
      | H : _ ∉ _ |- _ =>
          split; intros Hcode; apply H; rewrite Hcode;
          rewrite ?elem_of_cons; tauto
      end.
  - by intros [].
  - unfold Accounts_Get, NewRequestWithContext. repeat case_match; simpl; lia.
  - intros data. unfold Accounts_Update, NewRequestWithContext.
    repeat case_match; simpl; lia.
  - unfold Accounts_Delete, NewRequestWithContext. repeat case_match; simpl; lia.
Qed.

(** ** The properties at work *)

Lemma Accounts_errors_witness :
  (Accounts_Get demo.X (demo.answering 500 "500 Internal Server Error")
     demo.ctx demo.id).1.2
  = Some (errors_New "status code 500 Internal Server Error").
Proof.
  destruct (Accounts_errors demo.X (demo.answering 500 "500 Internal Server Error")
              demo.ctx demo.id) as (Hget & _).
  apply Hget.
  exists (StatusRefused (http.mkResponse 500 "500 Internal Server Error" "{}")).
  split; [|reflexivity].
  apply Get_fails_exchange, fails_status; [reflexivity|reflexivity|].
  intros Hin. apply elem_of_cons in Hin as [Hin|Hin]; [discriminate|].
  by apply elem_of_nil in Hin.
Defined.

Lemma ImportState_behaviour_witness :
  State
    (ImportState demo.E demo.resource demo.ctx
       {| ImportStateRequest_ID := "etl,123e4567-e89b-12d3-a456-426614174000" |}
       (start ∅)).2 !! "workspace_id"
  = Some demo.id_text.
Proof.
  destruct (ImportState_behaviour demo.E demo.resource demo.ctx
              {| ImportStateRequest_ID := "etl,123e4567-e89b-12d3-a456-426614174000" |}
              (start ∅)) as (_ & _ & _ & _ & H).
  specialize (H "etl" demo.id_text eq_refl).
  assert (Hparse : uuid.Parse demo.id_text = Ok demo.id) by reflexivity.
  rewrite Hparse in H. rewrite H; [reflexivity|discriminate|discriminate].
Defined.

Lemma state_matches_response_witness :
  let out :=
    Read demo.E demo.resource demo.ctx
      {| ReadRequest_State := demo.data demo.plan |} (start None) in
  succeeded out
  /\ exists c id d m,
       calls out.2 = [Call_Get c demo.ctx id]
       /\ api.Get c demo.ctx id = (Some d, None)
       /\ State out.2 = Some m
       /\ matches_response demo.E m d.
Proof.
  assert (Hok : succeeded
                  (Read demo.E demo.resource demo.ctx
                     {| ReadRequest_State := demo.data demo.plan |} (start None)))
    by (split; reflexivity).
  split; [exact Hok|].
  destruct (state_matches_response demo.E demo.resource demo.ctx (start None))
    as [H _].
  exact (H _ Hok).
Defined.

Lemma Create_error_leaves_state_witness :
  let req := {| CreateRequest_Config := demo.data demo.plan |} in
  let out := Create demo.E demo.broken_resource demo.ctx req (start None) in
  let data :=
    api.mkDeploymentCreate "old text" false "flows/etl.py:main" uuid.Nil "" "etl"
      (Some ∅) "" true (Some []) "" "" "" in
  (api.Create demo.broken_server demo.ctx data).2 = Some demo.refused
  /\ out.1 = Return
  /\ State out.2 = None
  /\ create_error_diagnostic demo.refused ∈ Diagnostics out.2.
Proof.
  intros req out data.
  split; [reflexivity|].
  destruct (Create_error_leaves_state demo.E demo.broken_resource demo.ctx req
              (start None)) as [H _].
  destruct (H demo.broken_server demo.ctx data demo.refused eq_refl eq_refl)
    as (_ & Hreturn & Hstate & Hdiag & _).
  split; [exact Hreturn|]. split; [exact Hstate|exact Hdiag].
Defined.

Lemma copyDeploymentToModel_leaves_parameters_witness :
  let req := {| CreateRequest_Config := demo.data demo.plan |} in
  let out := Create demo.E demo.resource demo.ctx req (start None) in
  succeeded out
  /\ exists m,
       State out.2 = Some m
       /\ Parameters m = jsontypes.NewNormalizedValue "{ }"
       /\ AccountID m = customtypes.UUIDNull
       /\ WorkspaceID m = customtypes.UUIDNull.
Proof.
  intros req out.
  assert (Hok : succeeded out) by (split; reflexivity).
  split; [exact Hok|].
  destruct (copyDeploymentToModel_leaves_parameters demo.E demo.resource demo.ctx)
    as [_ H].
  exact (H req (start None) Hok).
Defined.

(* ===================================================================== *)
(** * Further properties of the code *)

(** ** Pieces of a string, and the text of a UUID *)

Lemma Split_cons (c : ascii) (rest : string) (sep : ascii) :
  strings.Split (String c rest) sep
  = if decide (c = sep) then EmptyString :: strings.Split rest sep
    else match strings.Split rest sep with
         | piece :: pieces => String c piece :: pieces
         | [] => [String c EmptyString]
         end.
Proof. reflexivity. Qed.

Lemma Split_length (s : string) (sep : ascii) :
  length (strings.Split s sep) = S (Count s sep).
Proof.
  induction s as [|c rest IH]; [done|].
  rewrite Split_cons. simpl.
  destruct (decide (c = sep)); simpl; [by rewrite IH|].
  destruct (strings.Split rest sep); simpl in *; done.
Qed.

Lemma Split_without_sep (s : string) (sep : ascii) :
  Count s sep = 0 -> strings.Split s sep = [s].
Proof.
  induction s as [|c rest IH]; [done|].
  rewrite Split_cons. simpl.
  destruct (decide (c = sep)); [done|].
  intros H. by rewrite IH.
Qed.

Lemma Split_app (a b : string) (sep : ascii) :
  Count a sep = 0 ->
  strings.Split (a +:+ String sep b) sep = a :: strings.Split b sep.
Proof.
  induction a as [|c rest IH].
  - intros _. change (strings.Split (String sep b) sep = "" :: strings.Split b sep).
    rewrite Split_cons. by destruct (decide (sep = sep)).
  - change (Count (String c rest) sep = 0 ->
            strings.Split (String c (rest +:+ String sep b)) sep
            = String c rest :: strings.Split b sep).
    rewrite Split_cons. simpl.
    destruct (decide (c = sep)) as [|Hc]; [done|].
    intros H. by rewrite IH.
Qed.

Lemma Split_pieces (s : string) (sep : ascii) :
  Forall (fun piece => Count piece sep = 0) (strings.Split s sep).
Proof.
  induction s as [|c rest IH]; [by repeat constructor|].
  rewrite Split_cons.
  destruct (decide (c = sep)) as [|Hc]; [by constructor|].
  destruct (strings.Split rest sep) as [|piece pieces].
  { constructor; [|done]. simpl. by rewrite decide_False. }
  apply Forall_cons in IH as [Hpiece Hpieces].
  constructor; [|done]. simpl. by rewrite decide_False.
Qed.

Lemma xtob_hexdigit (b : Byte.byte) :
  uuid.xtob (uuid.hexdigit (Byte.to_N b / 16)) (uuid.hexdigit (Byte.to_N b mod 16))
  = Some b.
Proof. destruct b; reflexivity. Qed.

Lemma Parse_length (s : string) (u : uuid.UUID) :
  uuid.Parse s = Ok u -> length u = 16.
Proof.
  assert (Hh : forall t, uuid.parse_hyphenated t = Ok u -> length u = 16).
  { intros t. unfold uuid.parse_hyphenated.
    destruct (_ && _); [|done].
    destruct (mapM _ _) as [v|] eqn:Hv; [|done].
    intros [= ->]. by apply length_mapM in Hv. }
  unfold uuid.Parse. repeat case_match; try done; try apply Hh.
  unfold uuid.parse_plain.
  destruct (mapM _ _) as [v|] eqn:Hv; [|done].
  intros [= ->]. by apply length_mapM in Hv.
Qed.

Lemma Parse_String (u : uuid.UUID) :
  length u = 16 -> uuid.Parse (uuid.String u) = Ok u.
Proof.
  intros Hlen.
  do 16 (destruct u as [|? u]; [done|]). destruct u; [clear Hlen|done].
  unfold uuid.String, uuid.encodeHex.
  cbn -[N.div N.modulo Byte.to_N uuid.hexdigit].
  repeat match goal with
    | |- context [uuid.hexdigit (Byte.to_N ?b / 16)] =>
        let H := fresh "H" in
        let h := fresh "h" in
        let l := fresh "l" in
        pose proof (xtob_hexdigit b) as H;
        set (h := uuid.hexdigit (Byte.to_N b / 16)) in *;
        set (l := uuid.hexdigit (Byte.to_N b mod 16)) in *;
        clearbody h l
    end.
  cbv beta iota delta [String.append].
  unfold uuid.Parse. cbn -[uuid.xtob].
  unfold uuid.parse_hyphenated, uuid.is_dash, uuid.xtob_at, uuid.at_.
  cbn -[uuid.xtob].
  rewrite H, H0, H1, H2, H3, H4, H5, H6, H7, H8, H9, H10, H11, H12, H13, H14.
  reflexivity.
Qed.

Lemma hexdigit_no_comma (b : Byte.byte) :
  uuid.hexdigit (Byte.to_N b / 16) <> ","%char
  /\ uuid.hexdigit (Byte.to_N b mod 16) <> ","%char.
Proof. destruct b; split; discriminate. Qed.

Lemma String_no_comma (u : uuid.UUID) :
  length u = 16 -> Count (uuid.String u) ","%char = 0.
Proof.
  intros Hlen.
  do 16 (destruct u as [|? u]; [done|]). destruct u; [clear Hlen|done].
  unfold uuid.String, uuid.encodeHex.
  cbn -[N.div N.modulo Byte.to_N uuid.hexdigit].
  repeat match goal with
    | |- context [uuid.hexdigit (Byte.to_N ?b / 16)] =>
        let H := fresh "H" in
        let h := fresh "h" in
        let l := fresh "l" in
        pose proof (hexdigit_no_comma b) as H;
        set (h := uuid.hexdigit (Byte.to_N b / 16)) in *;
        set (l := uuid.hexdigit (Byte.to_N b mod 16)) in *;
        clearbody h l; destruct H
    end.
  cbv beta iota delta [String.append]. simpl.
  rewrite !decide_False by done. reflexivity.
Qed.

(** ** What [ImportState] does to an identifier *)

(** X1: for every identifier, [ImportState] comes back without a panic (its
    indexing of the parts is always in range), makes no call on the API, and
    leaves every attribute other than [id] and [workspace_id] as it was. *)
Theorem ImportState_is_safe (E : Externals) (r : DeploymentResource)
    (ctx : Context) (req : ImportStateRequest) (st : Run ImportedState Call) :
  let out := ImportState E r ctx req st in
  panicked out = false
  /\ calls out.2 = calls st
  /\ (forall name : string,
        name <> "id" -> name <> "workspace_id" ->
        State out.2 !! name = State st !! name).
Proof.
  intros out. subst out.
  pose proof (Split_nonempty (ImportStateRequest_ID req) ","%char) as Hne.
  destruct (strings.Split (ImportStateRequest_ID req) ","%char)
    as [|p0 [|p1 [|p2 rest]]] eqn:Hparts; [done| | |].
  - rewrite (ImportState_one _ _ _ _ _ p0) by done.
    split; [done|]. split; [done|].
    intros name Hid _. simpl. unfold ImportedState.
    by rewrite lookup_insert_ne.
  - rewrite (ImportState_two _ _ _ _ _ p0 p1) by done.
    destruct (_ || _); [done|].
    destruct (uuid.Parse p1); (split; [done|]); (split; [done|]);
      intros name Hid Hws; simpl; unfold ImportedState.
    + by rewrite !lookup_insert_ne.
    + by rewrite lookup_insert_ne.
  - rewrite ImportState_too_many by (rewrite Hparts; simpl; lia). done.
Qed.

(** X2: an identifier without a comma is imported whole as the [id], with
    no diagnostic and no other attribute written, whatever it is (the empty
    identifier too); an identifier with two commas or more is refused with
    an error diagnostic, and the state stays as it was. *)
Theorem ImportState_by_commas (E : Externals) (r : DeploymentResource)
    (ctx : Context) (req : ImportStateRequest) (st : Run ImportedState Call) :
  let id := ImportStateRequest_ID req in
  let out := ImportState E r ctx req st in
  (Count id ","%char = 0 ->
   out = (Next (), response_with st (Diagnostics st) (<["id" := id]> (State st))))
  /\ (2 <= Count id ","%char ->
      out.1 = Return
      /\ State out.2 = State st
      /\ diag.HasError (Diagnostics out.2) = true).
Proof.
  intros id out. subst id out. split.
  - intros Hcount. apply ImportState_one. by apply Split_without_sep.
  - intros Hcount. rewrite ImportState_too_many.
    + repeat split. simpl. apply HasError_AddError.
    + rewrite Split_length. lia.
Qed.

Lemma ImportState_by_commas_witness :
  let req := {| ImportStateRequest_ID := "" |} in
  Count "" ","%char = 0
  /\ ImportState demo.E demo.resource demo.ctx req (start ∅)
     = (Next (), response_with (start ∅) [] (<["id" := ""]> ∅)).
Proof.
  split; [reflexivity|].
  destruct (ImportState_by_commas demo.E demo.resource demo.ctx
              {| ImportStateRequest_ID := "" |} (start ∅)) as [H _].
  exact (H eq_refl).
Defined.

Lemma Split_canonical_pair (id : string) (u : uuid.UUID) :
  Count id ","%char = 0 -> length u = 16 ->
  strings.Split (id +:+ "," +:+ uuid.String u) ","%char = [id; uuid.String u].
Proof.
  intros Hcount Hlen.
  change (id +:+ "," +:+ uuid.String u)
    with (id +:+ String ","%char (uuid.String u)).
  rewrite Split_app by done.
  by rewrite Split_without_sep by (by apply String_no_comma).
Qed.

Lemma String_not_empty (u : uuid.UUID) : length u = 16 -> uuid.String u <> "".
Proof.
  intros Hlen Hempty. pose proof (Parse_String u Hlen) as Hp.
  rewrite Hempty in Hp. discriminate.
Qed.

(** X3: importing [id,workspace_id], where [id] is not empty and has no
    comma and [workspace_id] is the canonical text of a UUID, sets [id] and
    sets [workspace_id] to that same text, without a diagnostic: what
    [UUID.String] writes, [uuid.Parse] reads back. *)
Theorem ImportState_canonical_pair (E : Externals) (r : DeploymentResource)
    (ctx : Context) (st : Run ImportedState Call) (id : string) (u : uuid.UUID) :
  id <> "" -> Count id ","%char = 0 -> length u = 16 ->
  ImportState E r ctx
    {| ImportStateRequest_ID := id +:+ "," +:+ uuid.String u |} st
  = (Next (),
     response_with st (Diagnostics st)
       (<["workspace_id" := uuid.String u]> (<["id" := id]> (State st)))).
Proof.
  intros Hid Hcount Hlen.
  rewrite (ImportState_two _ _ _ _ _ id (uuid.String u))
    by (by apply Split_canonical_pair).
  rewrite (bool_decide_eq_false_2 (id = "")) by done.
  rewrite (bool_decide_eq_false_2 (uuid.String u = ""))
    by (by apply String_not_empty).
  simpl. by rewrite Parse_String.
Qed.

Lemma ImportState_canonical_pair_witness :
  State
    (ImportState demo.E demo.resource demo.ctx
       {| ImportStateRequest_ID := "etl" +:+ "," +:+ uuid.String demo.id |}
       (start ∅)).2 !! "workspace_id"
  = Some demo.id_text.
Proof.
  rewrite (ImportState_canonical_pair demo.E demo.resource demo.ctx (start ∅)
             "etl" demo.id); [reflexivity|discriminate|reflexivity|reflexivity].
Defined.

(** X4: whenever [ImportState] accepts a two-part identifier, the
    [workspace_id] it stores is in canonical form: it parses to the UUID of
    the part given, and importing the [id] with the stored [workspace_id]
    again gives the same state. *)
Theorem ImportState_normalises (E : Externals) (r : DeploymentResource)
    (ctx : Context) (req : ImportStateRequest) (st : Run ImportedState Call)
    (p0 p1 : string) :
  strings.Split (ImportStateRequest_ID req) ","%char = [p0; p1] ->
  diag.HasError (Diagnostics st) = false ->
  diag.HasError (Diagnostics (ImportState E r ctx req st).2) = false ->
  exists u,
    uuid.Parse p1 = Ok u
    /\ State (ImportState E r ctx req st).2 !! "workspace_id" = Some (uuid.String u)
    /\ uuid.Parse (uuid.String u) = Ok u
    /\ ImportState E r ctx
         {| ImportStateRequest_ID := p0 +:+ "," +:+ uuid.String u |} st
       = ImportState E r ctx req st.
Proof.
  intros Hparts Hst.
  assert (Hcount : Count p0 ","%char = 0).
  { pose proof (Split_pieces (ImportStateRequest_ID req) ","%char) as Hall.
    rewrite Hparts in Hall. by apply Forall_cons in Hall as [? _]. }
  rewrite (ImportState_two _ _ _ _ _ p0 p1) by done.
  destruct (bool_decide (p0 = "") || bool_decide (p1 = "")) eqn:Hempty; simpl.
  { by rewrite HasError_AddError. }
  apply orb_false_elim in Hempty as [Hp0%bool_decide_eq_false _].
  destruct (uuid.Parse p1) as [u|err] eqn:Hparse; simpl.
  - intros _. exists u. pose proof (Parse_length _ _ Hparse) as Hlen.
    split; [done|]. split; [apply lookup_insert_eq|].
    split; [by apply Parse_String|].
    rewrite (ImportState_two _ _ _ _ _ p0 (uuid.String u))
      by (by apply Split_canonical_pair).
    rewrite (bool_decide_eq_false_2 (p0 = "")) by done.
    rewrite (bool_decide_eq_false_2 (uuid.String u = ""))
      by (by apply String_not_empty).
    simpl. by rewrite Parse_String.
  - rewrite HasError_Append, HasError_ParseUUIDErrorDiagnostic.
    by rewrite orb_true_r.
Qed.

Lemma ImportState_normalises_witness :
  let req :=
    {| ImportStateRequest_ID := "etl,{123E4567-E89B-12D3-A456-426614174000}" |} in
  exists u,
    uuid.Parse "{123E4567-E89B-12D3-A456-426614174000}" = Ok u
    /\ State (ImportState demo.E demo.resource demo.ctx req (start ∅)).2
         !! "workspace_id" = Some (uuid.String u)
    /\ uuid.Parse (uuid.String u) = Ok u
    /\ ImportState demo.E demo.resource demo.ctx
         {| ImportStateRequest_ID := "etl" +:+ "," +:+ uuid.String u |} (start ∅)
       = ImportState demo.E demo.resource demo.ctx req (start ∅).
Proof.
  intros req.
  exact (ImportState_normalises demo.E demo.resource demo.ctx req (start ∅)
           "etl" "{123E4567-E89B-12D3-A456-426614174000}"
           eq_refl eq_refl eq_refl).
Defined.

(** ** What the resource methods keep *)

Ltac kept_diagnostic :=
  unfold diag.AddError, diag.AddAttributeError;
  repeat apply Append_subset; assumption.

(** X5: no method of the resource drops a diagnostic: every diagnostic of
    the response it is handed is still there when it ends, whether it ends
    in success, in an early return or in a panic. *)
Theorem diagnostics_only_grow (E : Externals) (r : DeploymentResource)
    (ctx : Context) :
  (forall req st,
      keeps_diagnostics (Diagnostics st) (Diagnostics (Create E r ctx req st).2))
  /\ (forall req st,
        keeps_diagnostics (Diagnostics st) (Diagnostics (Read E r ctx req st).2))
  /\ (forall req st,
        keeps_diagnostics (Diagnostics st) (Diagnostics (Update E r ctx req st).2))
  /\ (forall req st,
        keeps_diagnostics (Diagnostics st) (Diagnostics (Delete E r ctx req st).2))
  /\ (forall req st,
        keeps_diagnostics (Diagnostics st)
          (Diagnostics (ImportState E r ctx req st).2)).
Proof.
  unfold keeps_diagnostics.
  split; [|split; [|split; [|split]]]; intros req st d Hd.
  - destruct (Create E r ctx req st) as [k o] eqn:Hrun. simpl.
    run_method Create Hrun; kept_diagnostic.
  - destruct (Read E r ctx req st) as [k o] eqn:Hrun. simpl.
    run_method Read Hrun; kept_diagnostic.
  - destruct (Update E r ctx req st) as [k o] eqn:Hrun. simpl.
    run_method Update Hrun; kept_diagnostic.
  - destruct (Delete E r ctx req st) as [k o] eqn:Hrun. simpl.
    run_method Delete Hrun; kept_diagnostic.
  - pose proof (Split_nonempty (ImportStateRequest_ID req) ","%char) as Hne.
    destruct (strings.Split (ImportStateRequest_ID req) ","%char)
      as [|p0 [|p1 [|p2 rest]]] eqn:Hparts; [done| | |].
    + by rewrite (ImportState_one _ _ _ _ _ p0).
    + rewrite (ImportState_two _ _ _ _ _ p0 p1) by done.
      destruct (_ || _); simpl; [kept_diagnostic|].
      destruct (uuid.Parse p1); simpl; [done|kept_diagnostic].
    + rewrite ImportState_too_many by (rewrite Hparts; simpl; lia).
      simpl. kept_diagnostic.
Qed.

(** X6: [Create] and [Update] write the state only on a run that ends
    without an error diagnostic: whenever the response ends with an error
    diagnostic, whatever its cause, its state is the one the method was
    handed. *)
Theorem error_leaves_state (E : Externals) (r : DeploymentResource)
    (ctx : Context) (st : Run ResourceState Call) :
  (forall req,
      diag.HasError (Diagnostics (Create E r ctx req st).2) = true ->
      State (Create E r ctx req st).2 = State st)
  /\ (forall req,
        diag.HasError (Diagnostics (Update E r ctx req st).2) = true ->
        State (Update E r ctx req st).2 = State st).
Proof.
  split; intros req.
  - destruct (Create E r ctx req st) as [k o] eqn:Hrun. simpl. intros He.
    run_method Create Hrun; done.
  - destruct (Update E r ctx req st) as [k o] eqn:Hrun. simpl. intros He.
    run_method Update Hrun; done.
Qed.

Lemma error_leaves_state_witness :
  let req :=
    {| UpdateRequest_Plan :=
         demo.data (demo.with_ID (types.StringValue "nope") demo.plan) |} in
  let st := start (Some demo.plan) in
  diag.HasError (Diagnostics (Update demo.E demo.resource demo.ctx req st).2) = true
  /\ State (Update demo.E demo.resource demo.ctx req st).2 = Some demo.plan.
Proof.
  intros req st. split; [reflexivity|].
  destruct (error_leaves_state demo.E demo.resource demo.ctx st) as (_ & H).
  exact (H req eq_refl).
Defined.





(** X8: when building the deployments client returns an error, [Create] and
    [Update] make no call on the API: the check of the diagnostics that
    follows the reading of the tags finds the error, and the method returns
    (as [Update] already does on an [id] that does not parse) with the state
    as it was. *)
Theorem client_error_stops_Create_and_Update (E : Externals)
    (r : DeploymentResource) (ctx : Context) (st : Run ResourceState Call) :
  (forall req c err,
      let out := Create E r ctx req st in
      Deployments_for E r (Get_model (CreateRequest_Config req)) = (c, Some err) ->
      out.1 = Return
      /\ calls out.2 = calls st
      /\ State out.2 = State st
      /\ diag.HasError (Diagnostics out.2) = true)
  /\ (forall req c err,
        let out := Update E r ctx req st in
        Deployments_for E r (Get_model (UpdateRequest_Plan req)) = (c, Some err) ->
        out.1 = Return
        /\ calls out.2 = calls st
        /\ State out.2 = State st
        /\ diag.HasError (Diagnostics out.2) = true).
Proof.
  unfold Deployments_for. split; intros req c err Hclient.
  - destruct (Create E r ctx req st) as [k o] eqn:Hrun. simpl.
    run_method Create Hrun; calls_facts; repeat step; try congruence.
    all: repeat split; try done; has_error_facts; done.
  - destruct (Update E r ctx req st) as [k o] eqn:Hrun. simpl.
    run_method Update Hrun; calls_facts; repeat step; try congruence.
    all: repeat split; try done; has_error_facts; done.
Qed.

Lemma client_error_stops_Create_and_Update_witness :
  let req := {| CreateRequest_Config := demo.data demo.plan |} in
  let out := Create demo.E demo.half_configured demo.ctx req (start None) in
  out.1 = Return /\ calls out.2 = [] /\ State out.2 = None
  /\ diag.HasError (Diagnostics out.2) = true.
Proof.
  intros req.
  destruct (client_error_stops_Create_and_Update demo.E demo.half_configured
              demo.ctx (start None)) as [H _].
  exact (H req (Some demo.server) demo.no_workspace eq_refl).
Defined.

(** X9: with a deployments client that is not [nil] and that never returns
    a [nil] deployment together with a [nil] error, [Create], [Update] and
    [Delete] never panic, and [Read] does not either when the [id] is not
    null. *)
Theorem no_panic (E : Externals) (r : DeploymentResource) (ctx : Context)
    (st : Run ResourceState Call) (c : api.DeploymentsClient) :
  answers_or_fails c ->
  (forall req err,
      Deployments_for E r (Get_model (CreateRequest_Config req)) = (Some c, err) ->
      panicked (Create E r ctx req st) = false)
  /\ (forall req err,
        Deployments_for E r (Get_model (ReadRequest_State req)) = (Some c, err) ->
        types.String_IsNull (ID (Get_model (ReadRequest_State req))) = false ->
        panicked (Read E r ctx req st) = false)
  /\ (forall req err,
        Deployments_for E r (Get_model (UpdateRequest_Plan req)) = (Some c, err) ->
        panicked (Update E r ctx req st) = false)
  /\ (forall req err,
        Deployments_for E r (Get_model (DeleteRequest_State req)) = (Some c, err) ->
        panicked (Delete E r ctx req st) = false).
Proof.
  intros [Hcreate Hget]. unfold Deployments_for, panicked.
  split; [|split; [|split]].
  - intros req err Hclient.
    destruct (Create E r ctx req st) as [k o] eqn:Hrun. simpl.
    run_method Create Hrun; calls_facts; repeat step; try congruence.
    all: unfold copyDeploymentToModel in *; repeat step; try congruence.
    all: by edestruct Hcreate.
  - intros req err Hclient Hnull.
    destruct (Read E r ctx req st) as [k o] eqn:Hrun. simpl.
    run_method Read Hrun; null_facts; calls_facts; repeat step; try congruence.
    all: unfold copyDeploymentToModel in *; repeat step; try congruence.
    all: by edestruct Hget.
  - intros req err Hclient.
    destruct (Update E r ctx req st) as [k o] eqn:Hrun. simpl.
    run_method Update Hrun; calls_facts; repeat step; try congruence.
    all: unfold copyDeploymentToModel in *; repeat step; try congruence.
    all: by edestruct Hget.
  - intros req err Hclient.
    destruct (Delete E r ctx req st) as [k o] eqn:Hrun. simpl.
    run_method Delete Hrun; calls_facts; repeat step; congruence.
Qed.

Lemma no_panic_witness :
  answers_or_fails demo.server
  /\ panicked
       (Update demo.E demo.resource demo.ctx
          {| UpdateRequest_Plan := demo.data demo.plan |} (start None)) = false.
Proof.
  assert (Hserver : answers_or_fails demo.server) by (split; intros; discriminate).
  split; [exact Hserver|].
  destruct (no_panic demo.E demo.resource demo.ctx (start None) demo.server Hserver)
    as (_ & _ & H & _).
  exact (H {| UpdateRequest_Plan := demo.data demo.plan |} None eq_refl).
Defined.

(** ** What the methods send *)

(** X10: the payload of every [Create] call is read off the configuration:
    each string and boolean is the value of its attribute, a null or unknown
    attribute being sent as the empty string or as [false]; the flow is the
    UUID of [flow_id]; the tags and the parameters are what [ElementsAs] and
    [Unmarshal] made of [tags] and [parameters].  The call is made on the
    client that [Deployments] returned for the [account_id] and
    [workspace_id] of the configuration. *)
Theorem Create_payload (E : Externals) (r : DeploymentResource) (ctx : Context)
    (req : CreateRequest) (st : Run ResourceState Call)
    (c : api.DeploymentsClient) (ctx' : Context) (data : api.DeploymentCreate) :
  let plan := Get_model (CreateRequest_Config req) in
  calls (Create E r ctx req st).2 = calls st ++ [Call_Create c ctx' data] ->
  (Deployments_for E r plan).1 = Some c
  /\ api.DeploymentCreate_Name data = types.ValueString (Name plan)
  /\ api.DeploymentCreate_FlowID data = ValueUUID E (FlowID plan)
  /\ api.DeploymentCreate_Description data = types.ValueString (Description plan)
  /\ api.DeploymentCreate_Entrypoint data = types.ValueString (Entrypoint plan)
  /\ api.DeploymentCreate_ManifestPath data = types.ValueString (ManifestPath plan)
  /\ api.DeploymentCreate_Path data = types.ValueString (Path plan)
  /\ api.DeploymentCreate_Version data = types.ValueString (Version plan)
  /\ api.DeploymentCreate_WorkPoolName data = types.ValueString (WorkPoolName plan)
  /\ api.DeploymentCreate_WorkQueueName data = types.ValueString (WorkQueueName plan)
  /\ api.DeploymentCreate_Paused data = types.ValueBool (Paused plan)
  /\ api.DeploymentCreate_EnforceParameterSchema data
     = types.ValueBool (EnforceParameterSchema plan)
  /\ api.DeploymentCreate_Tags data = (ElementsAs E (Tags plan)).1
  /\ api.DeploymentCreate_Parameters data = (Unmarshal E (Parameters plan)).1.
Proof.
  intros plan Hcalls. subst plan. unfold Deployments_for.
  destruct (Create E r ctx req st) as [k o] eqn:Hrun. simpl in Hcalls.
  run_method Create Hrun; calls_facts; repeat step; try congruence.
  all: repeat match goal with
         | H : ?f = (_, _) |- context [?f] => rewrite H
         end.
  all: repeat split.
Qed.

Lemma Create_payload_witness :
  let req :=
    {| CreateRequest_Config :=
         demo.data (demo.with_ID types.StringUnknown demo.plan) |} in
  let data :=
    api.mkDeploymentCreate "old text" false "flows/etl.py:main" uuid.Nil "" "etl"
      (Some ∅) "" true (Some []) "" "" "" in
  calls (Create demo.E demo.resource demo.ctx req (start None)).2
  = [Call_Create demo.server demo.ctx data]
  /\ api.DeploymentCreate_ManifestPath data
     = types.ValueString (ManifestPath demo.plan).
Proof.
  intros req data. split; [reflexivity|].
  destruct (Create_payload demo.E demo.resource demo.ctx req (start None)
              demo.server demo.ctx data eq_refl)
    as (_ & _ & _ & _ & _ & H & _).
  exact H.
Defined.

(** X11: the payload of every [Update] call is read off the plan in the
    same way, and it is sent for the UUID the planned [id] parses to, before
    the one [Get] that refreshes the state. *)
Theorem Update_payload (E : Externals) (r : DeploymentResource) (ctx : Context)
    (req : UpdateRequest) (st : Run ResourceState Call)
    (c : api.DeploymentsClient) (ctx' : Context) (id : uuid.UUID)
    (payload : api.DeploymentUpdate) (new : list Call) :
  let model := Get_model (UpdateRequest_Plan req) in
  calls (Update E r ctx req st).2 = calls st ++ new ->
  Call_Update c ctx' id payload ∈ new ->
  (Deployments_for E r model).1 = Some c
  /\ uuid.Parse (types.ValueString (ID model)) = Ok id
  /\ api.DeploymentUpdate_Description payload = types.ValueString (Description model)
  /\ api.DeploymentUpdate_Entrypoint payload = types.ValueString (Entrypoint model)
  /\ api.DeploymentUpdate_ManifestPath payload = types.ValueString (ManifestPath model)
  /\ api.DeploymentUpdate_Path payload = types.ValueString (Path model)
  /\ api.DeploymentUpdate_Version payload = types.ValueString (Version model)
  /\ api.DeploymentUpdate_WorkPoolName payload = types.ValueString (WorkPoolName model)
  /\ api.DeploymentUpdate_WorkQueueName payload
     = types.ValueString (WorkQueueName model)
  /\ api.DeploymentUpdate_Paused payload = types.ValueBool (Paused model)
  /\ api.DeploymentUpdate_EnforceParameterSchema payload
     = types.ValueBool (EnforceParameterSchema model)
  /\ api.DeploymentUpdate_Tags payload = (ElementsAs E (Tags model)).1
  /\ api.DeploymentUpdate_Parameters payload = (Unmarshal E (Parameters model)).1.
Proof.
  intros model Hcalls Hcall. subst model. unfold Deployments_for.
  destruct (Update E r ctx req st) as [k o] eqn:Hrun. simpl in Hcalls.
  run_method Update Hrun.
  all: try match goal with
           | H : ?l = ?l ++ ?n |- _ =>
               assert (n = []) as ->
                 by (apply (app_inv_head l); by rewrite app_nil_r)
           | H : _ ++ _ = _ ++ ?n |- _ =>
               is_var n; rewrite <- ?app_assoc in H; apply app_inv_head in H;
               subst n
           end.
  all: simpl in Hcall.
  all: repeat match goal with
         | H : _ ∈ [] |- _ => by apply elem_of_nil in H
         | H : _ ∈ _ :: _ |- _ => apply elem_of_cons in H as [H|H]
         end; simplify_eq/=.
  all: repeat match goal with
         | H : ?f = (_, _) |- context [?f] => rewrite H
         end.
  all: repeat split; done.
Qed.

Lemma Update_payload_witness :
  let req := {| UpdateRequest_Plan := demo.data demo.plan |} in
  let payload :=
    api.mkDeploymentUpdate "old text" false "flows/etl.py:main" "" (Some ∅)
      "" true (Some []) "" "" "" in
  calls (Update demo.E demo.resource demo.ctx req (start None)).2
  = [Call_Update demo.server demo.ctx demo.id payload;
     Call_Get demo.server demo.ctx demo.id]
  /\ uuid.Parse (types.ValueString (ID demo.plan)) = Ok demo.id.
Proof.
  intros req payload. split; [reflexivity|].
  destruct (Update_payload demo.E demo.resource demo.ctx req (start None)
              demo.server demo.ctx demo.id payload
              [Call_Update demo.server demo.ctx demo.id payload;
               Call_Get demo.server demo.ctx demo.id] eq_refl)
    as (_ & H & _).
  - apply list_elem_of_here.
  - exact H.
Defined.

(** X12: when [Delete] ends without an error diagnostic and without a
    panic, it has made exactly one call, [Delete] for the parsed [id], that
    call returned no error, and the state it leaves is the model it read
    from the prior state: the method itself does not clear the state.  When
    the call returns an error, [Delete] reports it and returns with the
    state as it was. *)
Theorem Delete_outcome (E : Externals) (r : DeploymentResource) (ctx : Context)
    (req : DeleteRequest) (st : Run ResourceState Call) :
  let state := Get_model (DeleteRequest_State req) in
  let out := Delete E r ctx req st in
  (succeeded out ->
   exists c id,
     uuid.Parse (types.ValueString (ID state)) = Ok id
     /\ calls out.2 = calls st ++ [Call_Delete c ctx id]
     /\ api.Delete c ctx id = None
     /\ State out.2 = Some state)
  /\ (forall c id err,
        calls out.2 = calls st ++ [Call_Delete c ctx id] ->
        api.Delete c ctx id = Some err ->
        out.1 = Return
        /\ delete_error_diagnostic err ∈ Diagnostics out.2
        /\ State out.2 = State st).
Proof.
  intros state out. subst state out.
  destruct (Delete E r ctx req st) as [k o] eqn:Hrun.
  unfold succeeded, panicked. simpl. split.
  - intros [Hp He].
    run_method Delete Hrun. eauto 10.
  - intros c id err Hcalls Herr.
    run_method Delete Hrun; calls_facts; repeat step; try congruence.
    all: split; [done|]; split; [diag_elem|done].
Qed.

Lemma Delete_outcome_witness :
  let req := {| DeleteRequest_State := demo.data demo.plan |} in
  let out := Delete demo.E demo.resource demo.ctx req (start None) in
  succeeded out
  /\ exists c id,
       uuid.Parse (types.ValueString (ID demo.plan)) = Ok id
       /\ calls out.2 = [Call_Delete c demo.ctx id]
       /\ api.Delete c demo.ctx id = None
       /\ State out.2 = Some demo.plan.
Proof.
  intros req out.
  assert (Hok : succeeded out) by (split; reflexivity).
  split; [exact Hok|].
  destruct (Delete_outcome demo.E demo.resource demo.ctx req (start None))
    as [H _].
  exact (H Hok).
Defined.

(** ** Copying a deployment into the model *)

(** X13: whatever the model held before, after [copyDeploymentToModel] the
    [id], [description], [entrypoint], [manifest_path], [name], [path],
    [version], [work_pool_name] and [work_queue_name] are known strings,
    [enforce_parameter_schema] and [paused] known booleans and [flow_id] a
    known UUID: a string that the API leaves empty is stored as the known
    empty string, never as null. *)
Theorem copyDeploymentToModel_known (E : Externals) (ctx : Context)
    (deployment : option api.Deployment) (model model' : DeploymentResourceModel)
    (diags : diag.Diagnostics) :
  copyDeploymentToModel E ctx deployment model = Some (model', diags) ->
  String_known (ID model') = true
  /\ String_known (Description model') = true
  /\ String_known (Entrypoint model') = true
  /\ String_known (ManifestPath model') = true
  /\ String_known (Name model') = true
  /\ String_known (Path model') = true
  /\ String_known (Version model') = true
  /\ String_known (WorkPoolName model') = true
  /\ String_known (WorkQueueName model') = true
  /\ Bool_known (EnforceParameterSchema model') = true
  /\ Bool_known (Paused model') = true
  /\ UUID_known (FlowID model') = true
  /\ (forall d, deployment = Some d -> api.Deployment_Description d = "" ->
      Description model' = types.StringValue "").
Proof.
  unfold copyDeploymentToModel. intros H.
  destruct deployment as [d|]; [|done].
  destruct (ListValueFrom E (api.Deployment_Tags d)) as [tags diags'].
  destruct (diag.HasError diags'); simplify_eq/=; repeat split.
  all: by intros ? [= <-] ->.
Qed.

Lemma copyDeploymentToModel_known_witness :
  exists model',
    copyDeploymentToModel demo.E demo.ctx (Some demo.deployment) demo.plan
    = Some (model', [])
    /\ ManifestPath demo.plan = types.StringNull
    /\ String_known (ManifestPath model') = true.
Proof.
  eexists. split; [reflexivity|]. split; [reflexivity|].
  destruct (copyDeploymentToModel_known demo.E demo.ctx (Some demo.deployment)
              demo.plan _ [] eq_refl) as (_ & _ & _ & Hknown & _).
  exact Hknown.
Defined.

(** X14: [copyDeploymentToModel] overwrites: its result depends on the
    model it is given only through [account_id], [workspace_id],
    [parameters] and [tags]; and copying the same deployment into the
    result again changes nothing. *)
Theorem copyDeploymentToModel_overwrites (E : Externals) (ctx : Context)
    (d : api.Deployment) (m1 m2 : DeploymentResourceModel) :
  (AccountID m1 = AccountID m2 -> WorkspaceID m1 = WorkspaceID m2 ->
   Parameters m1 = Parameters m2 -> Tags m1 = Tags m2 ->
   copyDeploymentToModel E ctx (Some d) m1 = copyDeploymentToModel E ctx (Some d) m2)
  /\ (forall m1' diags,
        copyDeploymentToModel E ctx (Some d) m1 = Some (m1', diags) ->
        copyDeploymentToModel E ctx (Some d) m1' = Some (m1', diags)).
Proof.
  unfold copyDeploymentToModel. split.
  - intros -> -> -> ->. reflexivity.
  - intros m1' diags.
    destruct (ListValueFrom E (api.Deployment_Tags d)) as [tags diags'].
    destruct (diag.HasError diags'); intros [= <- <-]; reflexivity.
Qed.

Lemma copyDeploymentToModel_overwrites_witness :
  copyDeploymentToModel demo.E demo.ctx (Some demo.deployment)
    (demo.with_ID types.StringNull demo.plan)
  = copyDeploymentToModel demo.E demo.ctx (Some demo.deployment) demo.plan.
Proof.
  destruct (copyDeploymentToModel_overwrites demo.E demo.ctx demo.deployment
              (demo.with_ID types.StringNull demo.plan) demo.plan) as [H _].
  exact (H eq_refl eq_refl eq_refl eq_refl).
Defined.

(** ** Requests of the accounts client *)

(** X15: a method of the accounts client sends nothing when the payload
    does not encode or the request cannot be built, and otherwise sends
    exactly one request: to the endpoint of the client followed by
    [/accounts/] and the canonical text of the account's UUID, with the
    default headers of the client's API key and the caller's context; [Get]
    sends a GET and [Delete] a DELETE without a body, [Update] a PATCH whose
    body is the encoded payload. *)
Theorem Accounts_requests (X : ClientExternals) (c : AccountsClient) (ctx : Context)
    (accountID : uuid.UUID) :
  let url := endpoint c +:+ "/accounts/" +:+ uuid.String accountID in
  let request method body :=
    http.mkRequest ctx method url body (default_headers X (apiKey c)) in
  (Accounts_Get X c ctx accountID).2
  = match NewRequest_error X "GET" url with
    | Some _ => []
    | None => [request "GET" None]
    end
  /\ (Accounts_Delete X c ctx accountID).2
     = match NewRequest_error X "DELETE" url with
       | Some _ => []
       | None => [request "DELETE" None]
       end
  /\ (forall data,
        (Accounts_Update X c ctx accountID data).2
        = match Encode_AccountUpdate X data with
          | Err _ => []
          | Ok buf =>
              match NewRequest_error X "PATCH" url with
              | Some _ => []
              | None => [request "PATCH" (Some buf)]
              end
          end).
Proof.
  intros url request. subst url request.
  unfold Accounts_Get, Accounts_Delete, Accounts_Update, NewRequestWithContext,
    setDefaultHeaders, http.MethodGet, http.MethodDelete, http.MethodPatch.
  split; [|split; [|intros data]]; repeat case_match; simplify_eq/=; done.
Qed.

(** X16: [Get] returns an account or an error, never both and never
    neither: the pointer is [nil] exactly when the error is not. *)
Theorem Accounts_Get_one_result (X : ClientExternals) (c : AccountsClient)
    (ctx : Context) (accountID : uuid.UUID) :
  (Accounts_Get X c ctx accountID).1.1 = None
  <-> (Accounts_Get X c ctx accountID).1.2 <> None.
Proof.
  unfold Accounts_Get. repeat case_match; simpl; split; congruence.
Qed.

(** X17: [Client.Accounts] never fails, and the accounts client it returns
    works on the endpoint of the client, with its API key and through its
    HTTP client: a [Get] made with it hands to that HTTP client a request
    for the account under that endpoint, with the default headers of that
    key. *)
Theorem Accounts_shares_the_client (X : ClientExternals) (c : Client) (ctx : Context)
    (accountID : uuid.UUID) :
  (Accounts c).2 = None
  /\ forall req,
       req ∈ (Accounts_Get X (Accounts c).1 ctx accountID).2 ->
       http.URL req = Client_endpoint c +:+ "/accounts/" +:+ uuid.String accountID
       /\ http.Header req = default_headers X (Client_apiKey c)
       /\ http.Method req = "GET"
       /\ (Accounts_Get X (Accounts c).1 ctx accountID).1
          = match http.Do (Client_hc c) req with
            | Err err => (None, Some (fmt_Errorf_w "http error: " err))
            | Ok resp =>
                if decide (http.StatusCode resp = 200%Z) then
                  match Decode_AccountResponse X (http.Response_Body resp) with
                  | Ok account => (Some account, None)
                  | Err err =>
                      (None, Some (fmt_Errorf_w "failed to decode response: " err))
                  end
                else (None, Some (errors_New ("status code " +:+ http.Status resp)))
            end.
Proof.
  split; [done|]. intros req.
  unfold Accounts_Get, Accounts, NewRequestWithContext, setDefaultHeaders,
    status_error, http.StatusOK.
  simpl.
  destruct (NewRequest_error X http.MethodGet _); simpl.
  { by intros ?%elem_of_nil. }
  destruct (http.Do _ _) as [resp|err] eqn:Hdo.
  - destruct (decide (http.StatusCode resp ≠ 200%Z)) as [Hne|Heq].
    + intros ->%list_elem_of_singleton. simpl. rewrite Hdo.
      by destruct (decide (http.StatusCode resp = 200%Z)).
    + destruct (Decode_AccountResponse X _) eqn:Hdecode.
      all: intros ->%list_elem_of_singleton; simpl; rewrite Hdo.
      all: destruct (decide (http.StatusCode resp = 200%Z)); [|done].
      all: by rewrite Hdecode.
  - intros ->%list_elem_of_singleton. simpl. by rewrite Hdo.
Qed.

Lemma Accounts_shares_the_client_witness :
  let c :=
    mkClient (http.mkClient (fun _ => Ok (http.mkResponse 200 "200 OK" "{}")))
      "https://api.example.test" "key" in
  let req :=
    http.mkRequest demo.ctx "GET"
      "https://api.example.test/accounts/123e4567-e89b-12d3-a456-426614174000"
      None [("Authorization", "Bearer key")] in
  req ∈ (Accounts_Get demo.X (Accounts c).1 demo.ctx demo.id).2
  /\ http.Header req = default_headers demo.X (Client_apiKey c).
Proof.
  intros c req.
  assert (Hin : req ∈ (Accounts_Get demo.X (Accounts c).1 demo.ctx demo.id).2)
    by apply list_elem_of_here.
  split; [exact Hin|].
  destruct (Accounts_shares_the_client demo.X c demo.ctx demo.id) as [_ H].
  destruct (H req Hin) as (_ & Hheader & _). exact Hheader.
Defined.

(** ** Configuring the resource *)

(** X18: [Configure] stores a client in the resource exactly when the
    provider data is the provider's client, and adds an error diagnostic
    exactly when the provider data is a value of another type; with no
    provider data, and in each other respect, it leaves the resource and
    the diagnostics as they were. *)
Theorem Configure_outcome (r_client : option api.PrefectClient)
    (req : ConfigureRequest) (diags : diag.Diagnostics) :
  let out := Configure r_client req diags in
  match ConfigureRequest_ProviderData req with
  | ProviderData_nil => out = (r_client, diags)
  | ProviderData_PrefectClient c => out = (Some c, diags)
  | ProviderData_other _ =>
      out.1 = r_client /\ diag.HasError out.2 = true
      /\ keeps_diagnostics diags out.2
  end
  /\ (out.1 <> r_client ->
      exists c, ConfigureRequest_ProviderData req = ProviderData_PrefectClient c)
  /\ (diag.HasError diags = false -> diag.HasError out.2 = true ->
      exists type_name,
        ConfigureRequest_ProviderData req = ProviderData_other type_name).
Proof.
  unfold Configure. destruct (ConfigureRequest_ProviderData req); simpl.
  - split; [done|]. split; [done|]. congruence.
  - split; [done|]. split; [eauto|]. congruence.
  - rewrite HasError_AddError. split; [|split; [done|eauto]].
    split; [done|]. split; [done|].
    intros d Hd. by apply Append_subset.
Qed.

(** ** The schema and the model *)

(** X19: the schema and the model agree: no attribute name is declared
    twice, every attribute of the schema is bound to a field of the model
    of the type of that attribute, and every tagged field of the model is
    an attribute of the schema. *)
Theorem Schema_binds_model (m : DeploymentResourceModel) :
  NoDup (Schema.*1)
  /\ NoDup ((fields m).*1)
  /\ (forall name a,
        (name, a) ∈ Schema ->
        exists v, entry name (fields m) = Some v /\ fits a v = true)
  /\ (forall name v,
        (name, v) ∈ fields m -> exists a, entry name Schema = Some a).
Proof.
  split; [|split; [|split]].
  - by apply (bool_decide_unpack _); vm_compute.
  - by apply (bool_decide_unpack _); vm_compute.
  - intros name a Hin. unfold Schema in Hin.
    repeat (apply elem_of_cons in Hin as [[= -> ->]|Hin];
            [eexists; split; reflexivity|]).
    by apply elem_of_nil in Hin.
  - intros name v Hin. unfold fields in Hin.
    repeat (apply elem_of_cons in Hin as [[= -> ->]|Hin];
            [eexists; reflexivity|]).
    by apply elem_of_nil in Hin.
Qed.

Lemma copied_fields_entry (E : Externals) (d : api.Deployment)
    (m1 m2 : DeploymentResourceModel) (name : string) :
  copied_fields E m1 d -> copied_fields E m2 d ->
  name <> "account_id" -> name <> "workspace_id" -> name <> "parameters" ->
  entry name (fields m1) = entry name (fields m2).
Proof.
  unfold copied_fields. destruct m1, m2. simpl.
  intros (-> & -> & -> & -> & -> & -> & -> & -> & -> & -> & -> & -> & -> & -> & ->).
  intros (-> & -> & -> & -> & -> & -> & -> & -> & -> & -> & -> & -> & -> & -> & ->).
  intros Ha Hw Hp. unfold fields, entry. simpl.
  repeat case_match; try done; by subst.
Qed.

(** X20: after a successful [copyDeploymentToModel], the value of every
    attribute that the schema declares [Computed], [parameters] apart, is
    made from the response alone: the model that was handed over has no
    part in it.  [parameters], which the schema declares [Computed] too,
    keeps the value it had. *)
Theorem computed_attributes_come_from_response (E : Externals) (ctx : Context)
    (d : api.Deployment) (m1 m2 m1' m2' : DeploymentResourceModel)
    (diags1 diags2 : diag.Diagnostics) :
  copyDeploymentToModel E ctx (Some d) m1 = Some (m1', diags1) ->
  copyDeploymentToModel E ctx (Some d) m2 = Some (m2', diags2) ->
  diag.HasError diags1 = false ->
  (forall name a,
      (name, a) ∈ Schema -> Attribute_Computed a = true -> name <> "parameters" ->
      entry name (fields m1') = entry name (fields m2'))
  /\ (exists a,
        entry "parameters" Schema = Some a /\ Attribute_Computed a = true
        /\ entry "parameters" (fields m1') = entry "parameters" (fields m1)).
Proof.
  intros H1 H2 Hd1.
  assert (Hd2 : diag.HasError diags2 = false).
  { unfold copyDeploymentToModel in H1, H2.
    destruct (ListValueFrom E (api.Deployment_Tags d)) as [tags diags'].
    destruct (diag.HasError diags') eqn:He; simplify_eq/=; done. }
  pose proof (copyDeploymentToModel_frame _ _ _ _ _ _ H1) as (_ & _ & Hparams).
  apply copyDeploymentToModel_fields in H1 as (d1 & [= <-] & Hf1); [|done].
  apply copyDeploymentToModel_fields in H2 as (d2 & [= <-] & Hf2); [|done].
  split.
  - intros name a Hin Hcomputed Hname.
    apply (copied_fields_entry E d); try done.
    + intros ->. unfold Schema in Hin.
      repeat (apply elem_of_cons in Hin as [Heq|Hin]; [by simplify_eq/=|]).
      by apply elem_of_nil in Hin.
    + intros ->. unfold Schema in Hin.
      repeat (apply elem_of_cons in Hin as [Heq|Hin]; [by simplify_eq/=|]).
      by apply elem_of_nil in Hin.
  - eexists. split; [reflexivity|]. split; [reflexivity|].
    unfold fields, entry. simpl. by rewrite Hparams.
Qed.

Lemma computed_attributes_come_from_response_witness :
  exists m1' m2',
    copyDeploymentToModel demo.E demo.ctx (Some demo.deployment) demo.plan
    = Some (m1', [])
    /\ copyDeploymentToModel demo.E demo.ctx (Some demo.deployment)
         (demo.with_ID types.StringNull demo.plan) = Some (m2', [])
    /\ entry "id" (fields m1') = entry "id" (fields m2').
Proof.
  eexists _, _. split; [reflexivity|]. split; [reflexivity|].
  destruct (computed_attributes_come_from_response demo.E demo.ctx demo.deployment
              demo.plan (demo.with_ID types.StringNull demo.plan) _ _ [] []
              eq_refl eq_refl eq_refl) as [H _].
  apply (H "id" (mkAttribute StringAttribute None "Workspace ID (UUID)"
                   false false true None true)).
  - apply list_elem_of_here.
  - reflexivity.
  - discriminate.
Defined.

(** ** When the state is written in spite of an error *)


